(** * Workflow usage dashboard (app.py): the run aggregator

    The script loads a CSV of workflow runs into a pandas frame, normalises
    it, filters it by workflow and date range and derives KPI scalars, a
    branch distribution, a daily series and a table.  This development
    embeds those steps as functions on frames and proves the properties the
    specification states about them.

    Conventions of the embedding:
    - a frame is its list of column labels and its list of rows, each row a
      dictionary from label to cell;
    - a timestamp is the number of nanoseconds since 1970-01-01T00:00:00, as
      in a datetime64[ns] column; a date is a number of days since 1970-01-01;
    - a float is the rational it denotes, and an operation of binary64
      ([/ 60.0], the division and the product of the percentages, [round])
      is the exact operation followed by [b64], rounding to the nearest
      number with a significand of 53 bits, ties to even; the range of the
      exponent is not bounded, so overflow and subnormal numbers are not
      represented; a count is below 2^53 and converts exactly;
    - [sum] and [mean] of the duration column are exact: pandas does not fix
      the order of a floating-point sum, and the statements below use only
      whether the two duration tiles are shown, never their value;
    - text is ASCII: [strip] and [lower] act on code points below 128 and
      pass the others through;
    - a cell read from the CSV is a text or, when empty, a null: the types
      [pd.read_csv] infers for a column are not modelled. *)

From Stdlib Require Import ZArith QArith Qcanon Qround Qabs Qcabs Qpower Lia Lqa
  String Ascii List.
From stdpp Require Import base list gmap strings sorting numbers.

Open Scope string_scope.
Open Scope Z_scope.

(** ** Text helpers of the Python runtime *)

(** [str.isspace] on one character: TAB..CR, FS..US and the space. *)
Definition isspace (c : ascii) : bool :=
  let n := N_of_ascii c in
  ((9 <=? n) && (n <=? 13) || (28 <=? n) && (n <=? 32))%N.

Definition lower_char (c : ascii) : ascii :=
  let n := N_of_ascii c in
  if ((65 <=? n) && (n <=? 90))%N then ascii_of_N (n + 32) else c.

(** [str.lower] *)
Fixpoint lower (s : string) : string :=
  match s with
  | EmptyString => EmptyString
  | String c s' => String (lower_char c) (lower s')
  end.

Fixpoint lstrip (s : string) : string :=
  match s with
  | EmptyString => EmptyString
  | String c s' => if isspace c then lstrip s' else s
  end.

Fixpoint rstrip (s : string) : string :=
  match s with
  | EmptyString => EmptyString
  | String c s' =>
      match rstrip s' with
      | EmptyString => if isspace c then EmptyString else String c EmptyString
      | t => String c t
      end
  end.

(** [str.strip] without argument *)
Definition strip (s : string) : string := rstrip (lstrip s).

(** [sep.join(l)] *)
Fixpoint join (sep : string) (l : list string) : string :=
  match l with
  | [] => ""
  | [x] => x
  | x :: l' => x ++ sep ++ join sep l'
  end.

(** ** Time *)

Definition NS_PER_SECOND : Z := 1000000000.
Definition NS_PER_DAY : Z := 86400 * NS_PER_SECOND.

(** [datetime.combine(d, datetime.min.time())]: 00:00:00 of day [d]. *)
Definition combine_min (d : Z) : Z := d * NS_PER_DAY.

(** [datetime.combine(d, datetime.max.time())]: 23:59:59.999999 of day [d];
    a Python [time] has microsecond resolution. *)
Definition combine_max (d : Z) : Z := d * NS_PER_DAY + 86399999999 * 1000.

(** The calendar day a timestamp falls on. *)
Definition day_of (t : Z) : Z := t `div` NS_PER_DAY.

(** ** Frames *)

(** A cell: NaN / NaT / None, text, a datetime64[ns] value, a number. *)
Inductive cell :=
  | NA
  | Text (s : string)
  | Stamp (t : Z)
  | Num (q : Qc).

#[global] Instance cell_eq_dec : EqDecision cell.
Proof. solve_decision. Defined.

Abbreviation row := (gmap string cell).

Record DataFrame := {
  columns : list string;
  rows : list row
}.

(** [r[c]]; a label the row does not carry reads as a null. *)
Definition get (r : row) (c : string) : cell := default NA (r !! c).

(** [df[c]] as a list of cells *)
Definition series (df : DataFrame) (c : string) : list cell :=
  map (λ r, get r c) (rows df).

(** [df.empty] *)
Definition df_empty (df : DataFrame) : bool :=
  match rows df with [] => true | _ => false end.

(** [df.loc[mask]]: the rows the mask keeps, in order. *)
Definition loc (df : DataFrame) (m : row → bool) : DataFrame :=
  {| columns := columns df; rows := filter (λ r, m r) (rows df) |}.

(** [df[c] = f(row)]: the label is appended when the frame lacks it. *)
Definition set_column (c : string) (f : row → cell) (df : DataFrame)
  : DataFrame :=
  {| columns := if bool_decide (c ∈ columns df) then columns df
                else columns df ++ [c];
     rows := map (λ r, <[c := f r]> r) (rows df) |}.

Definition notna (c : cell) : bool :=
  match c with NA => false | _ => true end.

(** [s.nunique()]: distinct values, nulls left out. *)
Definition nunique (s : list cell) : nat :=
  length (remove_dups (filter (λ c, notna c) s)).

(** The numbers of a float column, nulls skipped. *)
Definition numbers (s : list cell) : list Qc :=
  omap (λ c, match c with Num q => Some q | _ => None end) s.

Definition Qcsum (l : list Qc) : Qc := foldr Qcplus 0%Qc l.

(** ** Filter (lines 98-111) *)

(** What the two sidebar widgets return. *)
Record FilterSpec := {
  selected_workflows : list string;
  start_date : Z;
  end_date : Z
}.

Definition start_dt (f : FilterSpec) : Z := combine_min (start_date f).
Definition end_dt (f : FilterSpec) : Z := combine_max (end_date f).

(** [series >= t] and [series <= t] on one cell; a NaT compares false. *)
Definition ge_dt (c : cell) (t : Z) : bool :=
  match c with Stamp x => bool_decide (t ≤ x) | _ => false end.

Definition le_dt (c : cell) (t : Z) : bool :=
  match c with Stamp x => bool_decide (x ≤ t) | _ => false end.

(** [series.isin(values)] on one cell *)
Definition isin (c : cell) (values : list string) : bool :=
  match c with Text s => bool_decide (s ∈ values) | _ => false end.

(** The mask of lines 107-109.  [if selected_workflows:] tests the list for
    being non-empty, and only then is the workflow test and-ed in. *)
Definition mask (f : FilterSpec) (r : row) : bool :=
  let m := ge_dt (get r "timestamp") (start_dt f)
           && le_dt (get r "timestamp") (end_dt f) in
  match selected_workflows f with
  | [] => m
  | _ :: _ => m && isin (get r "workflow") (selected_workflows f)
  end.

Definition filtered (df : DataFrame) (f : FilterSpec) : DataFrame :=
  loc df (mask f).

(** ** KPIs (lines 118-138) *)

Definition total_runs (flt : DataFrame) : nat := length (rows flt).

Definition has_any_duration (flt : DataFrame) : bool :=
  existsb notna (series flt "duration_minutes").

(** [None] stands for [np.nan]. *)
Definition total_minutes (flt : DataFrame) : option Qc :=
  if has_any_duration flt
  then Some (Qcsum (numbers (series flt "duration_minutes")))
  else None.

Definition avg_minutes (flt : DataFrame) : option Qc :=
  if has_any_duration flt
  then let xs := numbers (series flt "duration_minutes") in
       Some (Qcsum xs / Qc_of_Z (Z.of_nat (length xs)))%Qc
  else None.

Definition active_workflows (flt : DataFrame) : nat :=
  if df_empty flt then 0%nat else nunique (series flt "workflow").

Definition active_branches (flt : DataFrame) : nat :=
  if df_empty flt then 0%nat else nunique (series flt "branch").

(** What a metric tile shows: the number with its count of decimals, or the
    text N/A. *)
Inductive tile :=
  | Count (n : nat)
  | Minutes (q : Qc) (decimals : nat)
  | NotApplicable.

Definition minutes_tile (decimals : nat) (m : option Qc) : tile :=
  match m with
  | Some q => Minutes q decimals
  | None => NotApplicable
  end.

Record KPIs := {
  k_total_runs : tile;
  k_total_minutes : tile;
  k_avg_minutes : tile;
  k_active_workflows : tile;
  k_active_branches : tile
}.

Definition kpis (flt : DataFrame) : KPIs :=
  {| k_total_runs := Count (total_runs flt);
     k_total_minutes := minutes_tile 1 (total_minutes flt);
     k_avg_minutes := minutes_tile 2 (avg_minutes flt);
     k_active_workflows := Count (active_workflows flt);
     k_active_branches := Count (active_branches flt) |}.

(** ** Rounding *)

(** Round half to even, as [numpy.rint]. *)
Definition rint (q : Qc) : Z :=
  let f := Qfloor q in
  let d := (q - Qc_of_Z f)%Qc in
  if decide (d < 1 / 2)%Qc then f
  else if decide (1 / 2 < d)%Qc then f + 1
  else if Z.even f then f else f + 1.

Definition pow10 (d : nat) : Qc := Qc_of_Z (10 ^ Z.of_nat d).

(** *** binary64 *)

Definition pow2 (e : Z) : Qc := Q2Qc (2 ^ e)%Q.

(** The exponent of a positive number: [2^e <= x < 2^(e+1)]. *)
Definition ilog2 (x : Qc) : Z :=
  let e := Z.log2 (Qnum x) - Z.log2 (Z.pos (Qden x)) in
  if decide (pow2 e ≤ x)%Qc then e else e - 1.

(** The float nearest to [x], ties to even: between [2^e] and [2^(e+1)] the
    floats are the multiples of [2^(e-52)]. *)
Definition b64 (x : Qc) : Qc :=
  if decide (x = 0%Qc) then 0%Qc
  else let ulp := pow2 (ilog2 (Qcabs x) - 52) in
       (Qc_of_Z (rint (x / ulp)) * ulp)%Qc.

(** [x.round(d)] of numpy on a float: [rint(x * 10**d) / 10**d], the
    product and the quotient in binary64. *)
Definition round (d : nat) (q : Qc) : Qc :=
  b64 (Qc_of_Z (rint (b64 (q * pow10 d))) / pow10 d).

(** ** Branch distribution (lines 148-162) *)

Definition texts (s : list cell) : list string :=
  omap (λ c, match c with Text x => Some x | _ => None end) s.

(** [groupby(c).size().reset_index(name="runs")]: one entry per distinct
    key, keys in ascending order; rows whose key is null form no group.
    The keys of the script are the texts of the branch column. *)
Definition groupby_size (s : list cell) : list (string * nat) :=
  map (λ k, (k, length (filter (λ x, x = k) (texts s))))
      (merge_sort String.le (remove_dups (texts s))).

(** Order of [sort_values("runs", ascending=False)]. *)
Definition runs_desc (a b : string * nat) : Prop := (b.2 ≤ a.2)%nat.

#[global] Instance runs_desc_dec : RelDecision runs_desc.
Proof. intros a b. unfold runs_desc. apply _. Defined.

(** pandas sorts with an unstable quicksort there, so the order among equal
    counts is not fixed by the script; the embedding sorts with a merge
    sort and the theorems below do not depend on the order of ties. *)
Definition runs_by_branch (flt : DataFrame) : list (string * nat) :=
  merge_sort runs_desc (groupby_size (series flt "branch")).

(** [runs_by_branch["runs"].sum()] *)
Definition runs_sum (g : list (string * nat)) : nat := sum_list (g.*2).

(** [(runs / runs.sum() * 100).round(1)]: the counts are integers, their
    quotient and its product with 100 are floats. *)
Definition percentage (total n : nat) : Qc :=
  round 1 (b64 (b64 (Qc_of_Z (Z.of_nat n) / Qc_of_Z (Z.of_nat total))
                * Qc_of_Z 100)).

Record slice := {
  s_branch : string;
  s_runs : nat;
  s_percentage : Qc
}.

(** The pie of the script, or the warning shown in its place. *)
Inductive pie_chart :=
  | NoRunsWarning
  | Pie (slices : list slice).

Definition pie (flt : DataFrame) : pie_chart :=
  let g := runs_by_branch flt in
  if bool_decide (runs_sum g = 0%nat) then NoRunsWarning
  else Pie (map (λ kv, {| s_branch := kv.1; s_runs := kv.2;
                           s_percentage := percentage (runs_sum g) kv.2 |}) g).

(** [branch_order = runs_by_branch["branch"].tolist()] *)
Definition branch_order (p : pie_chart) : list string :=
  match p with
  | NoRunsWarning => []
  | Pie sl => map s_branch sl
  end.

(** ** Daily series (lines 197-200) *)

Definition stamps (s : list cell) : list Z :=
  omap (λ c, match c with Stamp t => Some t | _ => None end) s.

(** [resample("D").size()] on a datetime index: one bin per calendar day
    from the day of the least timestamp to the day of the greatest, each
    labelled by its midnight and holding its number of rows. *)
Definition resample_D_size (ts : list Z) : list (Z * nat) :=
  match ts with
  | [] => []
  | t0 :: ts' =>
      let lo := day_of (foldr Z.min t0 ts') in
      let hi := day_of (foldr Z.max t0 ts') in
      map (λ d, (combine_min d, length (filter (λ t, day_of t = d) ts)))
          (seqZ lo (hi - lo + 1))
  end.

(** [filtered.set_index("timestamp").sort_index()] then the resampling;
    the pairs are the columns [date] and [runs]. *)
Definition daily (flt : DataFrame) : list (Z * nat) :=
  resample_D_size (merge_sort Z.le (stamps (series flt "timestamp"))).

(** The charts block: [None] is the information message shown for an empty
    selection. *)
Definition charts (flt : DataFrame) : option (pie_chart * list (Z * nat)) :=
  if df_empty flt then None else Some (pie flt, daily flt).

(** ** Calendar fields of a timestamp, for [strftime] *)

(** Year, month and day of the proleptic Gregorian calendar for a number
    of days since 1970-01-01. *)
Definition civil_from_days (days : Z) : Z * Z * Z :=
  let z := days + 719468 in
  let era := z `div` 146097 in
  let doe := z - era * 146097 in
  let yoe := (doe - doe `div` 1460 + doe `div` 36524 - doe `div` 146096)
               `div` 365 in
  let doy := doe - (365 * yoe + yoe `div` 4 - yoe `div` 100) in
  let mp := (5 * doy + 2) `div` 153 in
  let d := doy - (153 * mp + 2) `div` 5 + 1 in
  let m := if mp <? 10 then mp + 3 else mp - 9 in
  (yoe + era * 400 + (if m <=? 2 then 1 else 0), m, d).

Definition digit (n : Z) : ascii := ascii_of_N (48 + Z.to_N (n `mod` 10)).

(** Zero-padded decimal fields. *)
Definition pad2 (n : Z) : string :=
  String (digit (n `div` 10)) (String (digit n) EmptyString).

Definition pad4 (n : Z) : string :=
  String (digit (n `div` 1000)) (String (digit (n `div` 100)) (pad2 n)).

(** [strftime("%Y-%m-%d %H:%M:%S")]; the years of a datetime64[ns] value
    lie between 1677 and 2262 and so have four digits. *)
Definition strftime (t : Z) : string :=
  let '(y, m, d) := civil_from_days (day_of t) in
  let s := (t `mod` NS_PER_DAY) `div` NS_PER_SECOND in
  pad4 y ++ "-" ++ pad2 m ++ "-" ++ pad2 d ++ " "
  ++ pad2 (s `div` 3600) ++ ":" ++ pad2 ((s `div` 60) `mod` 60) ++ ":"
  ++ pad2 (s `mod` 60).

(** The least and greatest value of a datetime64[ns] column. *)
Definition TIMESTAMP_MIN : Z := - 9223372036854775807.
Definition TIMESTAMP_MAX : Z := 9223372036854775807.

(** ** Table projection (lines 214-221) *)

Definition ALLOW_LIST : list string :=
  ["timestamp"; "workflow"; "branch"; "channel"; "type"; "run_id";
   "duration_minutes"; "subject"; "snippet"].

Definition display_cols (flt : DataFrame) : list string :=
  filter (λ c, c ∈ columns flt) ALLOW_LIST.

Definition stamp_of (r : row) : option Z :=
  match get r "timestamp" with Stamp t => Some t | _ => None end.

(** Order of [sort_values("timestamp", ascending=False)]: later rows
    first, rows without a timestamp last. *)
Definition timestamp_desc (r1 r2 : row) : Prop :=
  match stamp_of r1, stamp_of r2 with
  | Some a, Some b => b ≤ a
  | None, Some _ => False
  | _, None => True
  end.

#[global] Instance timestamp_desc_dec : RelDecision timestamp_desc.
Proof.
  intros r1 r2. unfold timestamp_desc.
  destruct (stamp_of r1), (stamp_of r2); apply _.
Defined.

(** As for the branches, the order among equal timestamps is not fixed by
    the script. *)
Definition sort_values_desc (df : DataFrame) : DataFrame :=
  {| columns := columns df; rows := merge_sort timestamp_desc (rows df) |}.

(** [df.loc[:, cols]] *)
Definition select (cols : list string) (df : DataFrame) : DataFrame :=
  {| columns := cols;
     rows := map (λ r : row, filter (λ kv, kv.1 ∈ cols) r) (rows df) |}.

(** [series.dt.strftime(...)] on one cell *)
Definition strftime_cell (c : cell) : cell :=
  match c with Stamp t => Text (strftime t) | _ => NA end.

(** [series.round(d)] on one cell *)
Definition round_cell (d : nat) (c : cell) : cell :=
  match c with Num q => Num (round d q) | _ => c end.

(** The two column assignments of lines 218-220. *)
Definition render_timestamp (t : DataFrame) : DataFrame :=
  set_column "timestamp" (λ r, strftime_cell (get r "timestamp")) t.

Definition render_duration (t : DataFrame) : DataFrame :=
  if bool_decide ("duration_minutes" ∈ columns t)
  then set_column "duration_minutes"
                  (λ r, round_cell 2 (get r "duration_minutes")) t
  else t.

(** [None] is the information message shown for an empty selection. *)
Definition table_df (flt : DataFrame) : option DataFrame :=
  if df_empty flt then None
  else Some (render_duration (render_timestamp
               (select (display_cols flt) (sort_values_desc flt)))).

(** ** Loading and normalising (lines 32-73) *)

Definition CANDIDATE_PATHS : list string :=
  ["syfan_workflows.csv"; "/mnt/data/syfan_workflows.csv"].

(** What [pd.read_csv] hands back: the header and the rows of text cells,
    an empty cell being [None]. *)
Record RawFrame := {
  raw_columns : list string;
  raw_rows : list (list (option string))
}.

(** A path of the file system: nothing there ([os.path.exists] is false),
    something [pd.read_csv] raises on, or a readable CSV. *)
Inductive file :=
  | Absent
  | Unreadable
  | Csv (f : RawFrame).

(** The loop of lines 39-46: the first candidate that exists and reads. *)
Fixpoint read_candidates (fs : string → file) (paths : list string)
  : option (RawFrame * string) :=
  match paths with
  | [] => None
  | p :: ps =>
      match fs p with
      | Csv f => Some (f, p)
      | _ => read_candidates fs ps
      end
  end.

(** How a run of the script ends: [st.error] followed by [st.stop], an
    exception, or a value. *)
Inductive outcome (A : Type) :=
  | Halted (msg : string)
  | Raised
  | Loaded (a : A).
Arguments Halted {A} msg.
Arguments Raised {A}.
Arguments Loaded {A} a.

Definition required : list string := ["timestamp"; "workflow"; "branch"].

(** [[c for c in required if c not in df.columns]] *)
Definition missing (cols : list string) : list string :=
  filter (λ c, c ∉ cols) required.

Definition of_raw (c : option string) : cell :=
  match c with Some s => Text s | None => NA end.

(** [df.columns = [c.strip().lower() for c in df.columns]]: the cells keep
    their positions and take the new labels. *)
Definition normalize (raw : RawFrame) : DataFrame :=
  let labels := map (λ c, lower (strip c)) (raw_columns raw) in
  {| columns := labels;
     rows := map (λ cells, list_to_map (zip labels (map of_raw cells)))
                 (raw_rows raw) |}.

(** The labels the script reads by name.  pandas keeps both columns under a
    label that occurs twice and the script raises where it reads such a
    label as one series, so a frame with one of these labels repeated is
    not taken further. *)
Definition NAMED_LABELS : list string :=
  required ++ ["duration"; "duration_minutes"; "channel"; "type"; "run_id";
               "subject"; "snippet"].

Definition repeated (cols : list string) (c : string) : bool :=
  bool_decide (1 < length (filter (λ x, x = c) cols))%nat.

(** [df.dropna(subset=[c])] *)
Definition dropna (c : string) (df : DataFrame) : DataFrame :=
  loc df (λ r, notna (get r c)).

(** [x / 60.0] on one cell of floats *)
Definition div60 (c : cell) : cell :=
  match c with Num q => Num (b64 (q / Qc_of_Z 60)) | _ => NA end.

Section Load.

(** The two parsers of pandas, taken as given.  [pd.to_datetime] reads a
    text in the light of the whole column (it infers one format for it);
    [pd.to_numeric] reads each text on its own, and what it returns is
    the float the text stands for. *)
Variable parse_datetime : list cell → string → option Z.
Variable parse_number : string → option Qc.

(** [pd.to_datetime(..., errors="coerce")] on one cell of a column: what
    does not parse, or falls outside datetime64[ns], becomes NaT. *)
Definition to_datetime (col : list cell) (c : cell) : cell :=
  match c with
  | Text s =>
      match parse_datetime col s with
      | Some t =>
          if bool_decide (TIMESTAMP_MIN ≤ t ≤ TIMESTAMP_MAX) then Stamp t
          else NA
      | None => NA
      end
  | _ => NA
  end.

(** [pd.to_numeric(..., errors="coerce")] on one cell *)
Definition to_numeric (c : cell) : cell :=
  match c with
  | Text s =>
      match parse_number s with
      | Some q => Num q
      | None => NA
      end
  | _ => NA
  end.

(** Lines 65-66 *)
Definition parse_timestamps (df : DataFrame) : DataFrame :=
  dropna "timestamp"
    (set_column "timestamp"
       (λ r, to_datetime (series df "timestamp") (get r "timestamp")) df).

(** Lines 69-73 *)
Definition add_duration (df : DataFrame) : DataFrame :=
  if bool_decide ("duration" ∈ columns df)
  then set_column "duration_minutes" (λ r, div60 (get r "duration"))
         (set_column "duration" (λ r, to_numeric (get r "duration")) df)
  else set_column "duration_minutes" (λ _, NA) df.

(** Lines 37-73 on one read frame *)
Definition load_frame (raw : RawFrame) : outcome DataFrame :=
  let df := normalize raw in
  match missing (columns df) with
  | [] =>
      if existsb (repeated (columns df)) NAMED_LABELS then Raised
      else Loaded (add_duration (parse_timestamps df))
  | m => Halted ("Missing required column(s): " ++ join ", " m)
  end.

Definition load (fs : string → file) : outcome DataFrame :=
  match read_candidates fs CANDIDATE_PATHS with
  | None =>
      Halted ("CSV not found. Please place 'syfan_workflows.csv' next to "
              ++ "app.py and rerun.")
  | Some (raw, used_path) => load_frame raw
  end.

End Load.

(** ** The rendering pass (lines 98-221) *)

(** Everything one pass derives from the record set and the filter. *)
Record Outputs := {
  o_filtered : DataFrame;
  o_kpis : KPIs;
  o_charts : option (pie_chart * list (Z * nat));
  o_table : option DataFrame
}.

Definition render (df : DataFrame) (f : FilterSpec) : Outputs :=
  let flt := filtered df f in
  {| o_filtered := flt;
     o_kpis := kpis flt;
     o_charts := charts flt;
     o_table := table_df flt |}.

(** The whole script: nothing downstream runs once it has halted. *)
Definition app (parse_datetime : list cell → string → option Z)
    (parse_number : string → option Qc)
    (fs : string → file) (f : FilterSpec) : outcome Outputs :=
  match load parse_datetime parse_number fs with
  | Halted msg => Halted msg
  | Raised => Raised
  | Loaded df => Loaded (render df f)
  end.

(** ** The rendering pass as the script runs it, on a store of frames

    A pandas frame is an object that several names may share and that
    column assignment changes in place.  The store maps object identities
    to frames; a name of the script holds an identity. *)

Abbreviation store := (gmap nat DataFrame).

Definition script (A : Type) : Type := store → A * store.

#[global] Instance script_ret : MRet script := λ A a h, (a, h).

#[global] Instance script_bind : MBind script :=
  λ A B k m h, let '(a, h') := m h in k a h'.

(** A new object, as [.copy()] and every frame-valued expression give. *)
Definition alloc (d : DataFrame) : script nat :=
  λ h, let l := fresh (dom h) in (l, <[l := d]> h).

Definition no_frame : DataFrame := {| columns := []; rows := [] |}.

Definition read (l : nat) : script DataFrame :=
  λ h, (default no_frame (h !! l), h).

(** Assignment into the object itself. *)
Definition assign (l : nat) (f : DataFrame → DataFrame) : script unit :=
  λ h, (tt, alter f l h).

(** Lines 216-221: the table is a copy, and the two column assignments
    write into that copy. *)
Definition table_script (filtered_id : nat) : script (option DataFrame) :=
  flt ← read filtered_id;
  if df_empty flt then mret None
  else
    table_id ← alloc (select (display_cols flt) (sort_values_desc flt));
    assign table_id render_timestamp;;
    assign table_id render_duration;;
    t ← read table_id;
    mret (Some t).

(** Lines 106-221 with [df] held at [df_id]. *)
Definition render_script (f : FilterSpec) (df_id : nat) : script Outputs :=
  df ← read df_id;
  filtered_id ← alloc (loc df (mask f));
  flt ← read filtered_id;
  tbl ← table_script filtered_id;
  mret {| o_filtered := flt;
          o_kpis := kpis flt;
          o_charts := charts flt;
          o_table := tbl |}.

(** ** The filter contract in the words of the specification *)

(** The timestamp of the row lies between 00:00:00 of the start date and
    23:59:59.999999 of the end date, one microsecond before the next
    midnight, both ends included. *)
Definition in_range (f : FilterSpec) (r : row) : Prop :=
  match get r "timestamp" with
  | Stamp t =>
      start_date f * NS_PER_DAY ≤ t ≤ (end_date f + 1) * NS_PER_DAY - 1000
  | _ => False
  end.

#[global] Instance in_range_dec f r : Decision (in_range f r).
Proof. unfold in_range. destruct (get r "timestamp"); apply _. Defined.

(** The workflow of the row is a member of the selected set. *)
Definition workflow_selected (f : FilterSpec) (r : row) : Prop :=
  match get r "workflow" with
  | Text w => w ∈ selected_workflows f
  | _ => False
  end.

#[global] Instance workflow_selected_dec f r : Decision (workflow_selected f r).
Proof. unfold workflow_selected. destruct (get r "workflow"); apply _. Defined.

(** ** Sample data: the three runs of the specification's example *)

Definition JAN_1_2024 : Z := 19723.

Definition run (t : Z) (w b : option string) (minutes : option Qc) : row :=
  list_to_map
    [("timestamp", Stamp t); ("workflow", from_option Text NA w);
     ("branch", from_option Text NA b);
     ("duration_minutes", from_option Num NA minutes)].

Definition sample_df : DataFrame :=
  {| columns := ["timestamp"; "workflow"; "branch"; "duration_minutes"];
     rows := [run (combine_min JAN_1_2024) (Some "A") (Some "X")
                  (Some (Qc_of_Z 2));
              run (combine_min JAN_1_2024) (Some "B") (Some "Y") None;
              run (combine_min (JAN_1_2024 + 2)) (Some "A") (Some "X")
                  (Some (Qc_of_Z 1))] |}.

Definition full_range (sel : list string) : FilterSpec :=
  {| selected_workflows := sel;
     start_date := JAN_1_2024;
     end_date := JAN_1_2024 + 2 |}.

(** ** The daily series in the words of the specification *)

(** The row falls on calendar day [d]. *)
Definition on_day (d : Z) (r : row) : Prop := day_of <$> stamp_of r = Some d.

#[global] Instance on_day_dec d r : Decision (on_day d r).
Proof. unfold on_day. apply _. Defined.

(** ** The branch distribution in the words of the specification *)

(** The number of rows of the subset on branch [b]. *)
Definition branch_count (flt : DataFrame) (b : string) : nat :=
  length (filter (λ r, get r "branch" = Text b) (rows flt)).

(** The exact share of [n] runs among [total], in percent. *)
Definition share (total n : nat) : Qc :=
  (Qc_of_Z 100 * Qc_of_Z (Z.of_nat n) / Qc_of_Z (Z.of_nat total))%Qc.

(** [x] lies within [tol] of [y]. *)
Definition within (tol x y : Qc) : Prop := (y - tol ≤ x ≤ y + tol)%Qc.

(** The unit roundoff of binary64: the relative error of one operation. *)
Definition UNIT_ROUNDOFF : Qc := pow2 (-53).

(** What the floating-point operations of a rounding may add to the error
    of the rounding itself, for a number of size one. *)
Definition FLOAT_TOLERANCE : Qc := pow2 (-43).

(** [q] has one decimal: it is the float nearest to a whole number of
    tenths, the float that prints with that one decimal. *)
Definition one_decimal (q : Qc) : Prop :=
  ∃ k : Z, q = b64 (Qc_of_Z k / Qc_of_Z 10).

(** Half a unit of the last decimal kept. *)
Definition HALF_TENTH : Qc := (1 / Qc_of_Z 20)%Qc.

(** The branch of a row, when it has one. *)
Definition branch_of (r : row) : option string :=
  match get r "branch" with Text b => Some b | _ => None end.

(** The number of rows of the subset that have a branch. *)
Definition branch_rows (flt : DataFrame) : nat :=
  length (filter (λ r, is_Some (branch_of r)) (rows flt)).

Record distribution (flt : DataFrame) (sl : list slice) : Prop := {
  branches_once : NoDup (map s_branch sl);
  branches_all :
    ∀ b, b ∈ map s_branch sl ↔ ∃ r, r ∈ rows flt ∧ get r "branch" = Text b;
  runs_counted : Forall (λ s, s_runs s = branch_count flt (s_branch s)) sl;
  runs_descending : StronglySorted (λ a b, (s_runs b ≤ s_runs a)%nat) sl;
  percentage_rounded :
    Forall (λ s, one_decimal (s_percentage s)
                 ∧ within (HALF_TENTH + FLOAT_TOLERANCE) (s_percentage s)
                          (share (branch_rows flt) (s_runs s))) sl;
  percentage_total :
    within (Qc_of_Z (Z.of_nat (length sl)) * (HALF_TENTH + FLOAT_TOLERANCE))
           (Qcsum (map s_percentage sl)) (Qc_of_Z 100)
}.

(** A record set whose only run has no branch. *)
Definition null_branch_df : DataFrame :=
  {| columns := ["timestamp"; "workflow"; "branch"; "duration_minutes"];
     rows := [run (combine_min JAN_1_2024) (Some "A") None None] |}.

(** ** Sample stores *)

(** The record set alone, and a store that holds other frames as well. *)
Definition sample_store : store := {[ 0%nat := sample_df ]}.

Definition busy_store : store :=
  {[ 0%nat := null_branch_df; 1%nat := no_frame; 5%nat := sample_df ]}.

(** ** The calendar, and the fixed format read back *)

Definition is_leap (y : Z) : bool :=
  bool_decide (y `mod` 4 = 0)
  && (negb (bool_decide (y `mod` 100 = 0)) || bool_decide (y `mod` 400 = 0)).

Definition days_in_month (y m : Z) : Z :=
  if bool_decide (m = 2) then (if is_leap y then 29 else 28)
  else if bool_decide (m = 4 ∨ m = 6 ∨ m = 9 ∨ m = 11) then 30
  else 31.

(** The leap years from year 1 to year [y], both included. *)
Definition leap_years (y : Z) : Z := y `div` 4 - y `div` 100 + y `div` 400.

(** The days from 1970-01-01 to the first of January of year [y]. *)
Definition days_before_year (y : Z) : Z :=
  365 * (y - 1970) + (leap_years (y - 1) - leap_years 1969).

(** The days of year [y] before the first of month [m]. *)
Definition days_before_month (y m : Z) : Z :=
  foldr Z.add 0 (map (days_in_month y) (seqZ 1 (m - 1))).

Definition date_to_days (y m d : Z) : Z :=
  days_before_year y + days_before_month y m + (d - 1).

Definition valid_date (y m d : Z) : Prop :=
  1 ≤ m ≤ 12 ∧ 1 ≤ d ≤ days_in_month y m.

#[global] Instance valid_date_dec y m d : Decision (valid_date y m d).
Proof. unfold valid_date. apply _. Defined.

Definition digit_value (c : ascii) : option Z :=
  let n := Z.of_N (N_of_ascii c) in
  if bool_decide (48 ≤ n ≤ 57) then Some (n - 48) else None.

(** The number a run of decimal digits denotes, after the digits [acc]. *)
Fixpoint number (acc : Z) (cs : list ascii) : option Z :=
  match cs with
  | [] => Some acc
  | c :: cs' =>
      match digit_value c with
      | Some v => number (10 * acc + v) cs'
      | None => None
      end
  end.

Record fields := {
  year : Z; month : Z; day : Z; hour : Z; minute : Z; second : Z
}.

(** A text of the form YYYY-MM-DD HH:MM:SS, field by field. *)
Definition read_fixed (s : string) : option fields :=
  match list_ascii_of_string s with
  | [y1; y2; y3; y4; p1; m1; m2; p2; d1; d2; p3;
     h1; h2; p4; n1; n2; p5; s1; s2] =>
      if bool_decide ([p1; p2; p3; p4; p5] = ["-"; "-"; " "; ":"; ":"]%char)
      then
        match number 0 [y1; y2; y3; y4], number 0 [m1; m2], number 0 [d1; d2],
              number 0 [h1; h2], number 0 [n1; n2], number 0 [s1; s2] with
        | Some y, Some m, Some d, Some h, Some n, Some s =>
            Some {| year := y; month := m; day := d;
                    hour := h; minute := n; second := s |}
        | _, _, _, _, _, _ => None
        end
      else None
  | _ => None
  end.

(** The text is the fixed-format rendering of the calendar second that
    timestamp [t] falls in. *)
Definition renders (t : Z) (s : string) : Prop :=
  ∃ fl, read_fixed s = Some fl
        ∧ valid_date (year fl) (month fl) (day fl)
        ∧ 0 ≤ hour fl < 24 ∧ 0 ≤ minute fl < 60 ∧ 0 ≤ second fl < 60
        ∧ ((date_to_days (year fl) (month fl) (day fl) * 24 + hour fl) * 60
           + minute fl) * 60 + second fl
          = t `div` NS_PER_SECOND.

(** ** The table in the words of the specification *)

(** Row [r1] is not earlier than row [r2]. *)
Definition later_first (r1 r2 : row) : Prop :=
  ∃ t1 t2, get r1 "timestamp" = Stamp t1 ∧ get r2 "timestamp" = Stamp t2
           ∧ t2 ≤ t1.

(** Half a unit of the second decimal. *)
Definition HALF_HUNDREDTH : Qc := (1 / Qc_of_Z 200)%Qc.

(** [q] has two decimals: it is the float nearest to a whole number of
    hundredths, the float that prints with those two decimals. *)
Definition two_decimals (q : Qc) : Prop :=
  ∃ k : Z, q = b64 (Qc_of_Z k / Qc_of_Z 100).

(** Cell [c'] is cell [c] rounded to two decimals; a null stays a null.
    The float shown lies within half a hundredth of the float rounded, up
    to the error of the floating-point operations, which grows with the
    size of the number. *)
Definition rounded (c c' : cell) : Prop :=
  match c with
  | Num q =>
      ∃ q', c' = Num q' ∧ two_decimals q'
            ∧ within (HALF_HUNDREDTH + FLOAT_TOLERANCE * (1 + Qcabs q)) q' q
  | _ => c' = c
  end.

(** Row [r] of the table shows row [r0] of the subset: the columns kept,
    the timestamp as a text of the fixed format, the minutes rounded and
    every other column as it is. *)
Definition table_row (cols : list string) (r0 r : row) : Prop :=
  ∀ c,
    if decide (c ∈ cols) then
      if decide (c = "timestamp") then
        ∃ t s, get r0 c = Stamp t ∧ get r c = Text s ∧ renders t s
      else if decide (c = "duration_minutes") then rounded (get r0 c) (get r c)
      else get r c = get r0 c
    else r !! c = None.

(** One row of the table, as lines 217-220 build it. *)
Definition table_row_of (cols : list string) (r0 : row) : row :=
  let r1 : row := filter (λ kv : string * cell, kv.1 ∈ cols) r0 in
  let r2 : row := <["timestamp" := strftime_cell (get r1 "timestamp")]> r1 in
  if bool_decide ("duration_minutes" ∈ cols)
  then <["duration_minutes" := round_cell 2 (get r2 "duration_minutes")]> r2
  else r2.

(** ** Loading in the words of the specification *)

(** The labels of the source after trimming and lower-casing. *)
Definition labels (raw : RawFrame) : list string :=
  map (λ c, lower (strip c)) (raw_columns raw).

(** The valid timestamp a cell of the column [col] holds, if any: the cell
    is a text that the parser reads as a value of datetime64[ns]. *)
Definition timestamp_of (parse_datetime : list cell → string → option Z)
    (col : list cell) (c : cell) : option Z :=
  match c with
  | Text s =>
      match parse_datetime col s with
      | Some t => if decide (TIMESTAMP_MIN ≤ t ≤ TIMESTAMP_MAX) then Some t
                  else None
      | None => None
      end
  | _ => None
  end.

(** Row [r] of the record set is row [r0] of the source with its timestamp
    parsed; workflow and branch are as the source has them. *)
Definition loaded_row (parse_datetime : list cell → string → option Z)
    (col : list cell) (r0 r : row) : Prop :=
  (∃ t, timestamp_of parse_datetime col (get r0 "timestamp") = Some t
        ∧ get r "timestamp" = Stamp t)
  ∧ get r "workflow" = get r0 "workflow"
  ∧ get r "branch" = get r0 "branch".

(** [raw] is the frame of the first candidate path that holds a readable
    CSV. *)
Definition first_readable (fs : string → file) (raw : RawFrame) : Prop :=
  ∃ (before : list string) (p : string) (after : list string),
    CANDIDATE_PATHS = (before ++ p :: after)%list
    ∧ fs p = Csv raw
    ∧ ∀ q, q ∈ before → ∀ r, fs q ≠ Csv r.

(** The two failures of loading and the message each one shows. *)
Inductive failure (fs : string → file) : string → Prop :=
  | source_unavailable :
      (∀ p, p ∈ CANDIDATE_PATHS → ∀ raw, fs p ≠ Csv raw) →
      failure fs ("CSV not found. Please place 'syfan_workflows.csv' next to "
                  ++ "app.py and rerun.")
  | schema_invalid raw m :
      first_readable fs raw →
      m = filter (λ c, c ∉ labels raw) ["timestamp"; "workflow"; "branch"] →
      m ≠ [] →
      failure fs ("Missing required column(s): " ++ join ", " m).

(** ** Sample sources *)

(** Stand-ins for the two parsers of pandas: dates written YYYY-MM-DD, and
    whole numbers. *)
Definition read_date (s : string) : option Z :=
  match list_ascii_of_string s with
  | [y1; y2; y3; y4; p1; m1; m2; p2; d1; d2] =>
      if bool_decide ([p1; p2] = ["-"; "-"]%char)
      then
        match number 0 [y1; y2; y3; y4], number 0 [m1; m2],
              number 0 [d1; d2] with
        | Some y, Some m, Some d =>
            if bool_decide (valid_date y m d)
            then Some (date_to_days y m d * NS_PER_DAY)
            else None
        | _, _, _ => None
        end
      else None
  | _ => None
  end.

Definition iso_dates (col : list cell) (s : string) : option Z := read_date s.

Definition whole_numbers (s : string) : option Qc :=
  match list_ascii_of_string s with
  | [] => None
  | cs => Qc_of_Z <$> number 0 cs
  end.

(** The three runs of the specification's example as a CSV, with a fourth
    line whose timestamp does not parse. *)
Definition sample_raw : RawFrame :=
  {| raw_columns := [" Timestamp"; "Workflow "; "BRANCH"; "duration"];
     raw_rows := [[Some "2024-01-01"; Some "A"; Some "X"; Some "120"];
                  [Some "2024-01-01"; Some "B"; Some "Y"; None];
                  [Some "yesterday"; Some "B"; Some "Y"; Some "30"];
                  [Some "2024-01-03"; Some "A"; Some "X"; Some "60"]] |}.

(** A CSV without the duration column. *)
Definition no_duration_raw : RawFrame :=
  {| raw_columns := ["timestamp"; "workflow"; "branch"];
     raw_rows := [[Some "2024-01-01"; Some "A"; Some "X"];
                  [Some "2024-01-03"; Some "A"; Some "X"]] |}.

(** A CSV with an empty workflow cell. *)
Definition null_workflow_raw : RawFrame :=
  {| raw_columns := ["timestamp"; "workflow"; "branch"];
     raw_rows := [[Some "2024-01-01"; None; Some "X"]] |}.

(** A CSV without the workflow and branch columns. *)
Definition headless_raw : RawFrame :=
  {| raw_columns := ["Timestamp"; "Duration"];
     raw_rows := [[Some "2024-01-01"; Some "120"]] |}.

(** A file system whose first candidate does not read and whose second is
    [headless_raw]. *)
Definition sample_fs (p : string) : file :=
  if decide (p = "syfan_workflows.csv") then Unreadable
  else if decide (p = "/mnt/data/syfan_workflows.csv") then Csv headless_raw
  else Absent.

(** The record set of a run that loaded one. *)
Definition loaded (o : outcome DataFrame) : DataFrame :=
  match o with Loaded df => df | _ => no_frame end.

(** * Further definitions *)

(** ** Text in the words of the specification *)

(** The text is made of whitespace only. *)
Fixpoint blank (s : string) : bool :=
  match s with
  | EmptyString => true
  | String c s' => isspace c && blank s'
  end.

(** The text is empty or starts with a character that is not whitespace. *)
Definition trimmed_left (s : string) : Prop :=
  match s with
  | EmptyString => True
  | String c _ => isspace c = false
  end.

(** ** Loading, continued *)

(** The minutes of a duration cell of the source: the number of seconds
    it holds over sixty, as a float, a null when it holds no number. *)
Definition minutes_of (parse_number : string → option Qc) (c : cell) : cell :=
  match c with
  | Text s =>
      match parse_number s with
      | Some q => Num (b64 (q / Qc_of_Z 60))
      | None => NA
      end
  | _ => NA
  end.

(** A file system whose first candidate is [sample_raw]. *)
Definition local_fs (p : string) : file :=
  if decide (p = "syfan_workflows.csv") then Csv sample_raw
  else if decide (p = "/mnt/data/syfan_workflows.csv") then Csv headless_raw
  else Absent.

(** ** The sidebar (line 80) *)

(** [sorted(df["workflow"].dropna().unique().tolist())]: the options of
    the multiselect, which are its default selection as well. *)
Definition workflows (df : DataFrame) : list string :=
  merge_sort String.le (remove_dups (texts (series df "workflow"))).

(** The workflow of a row, when it has one. *)
Definition workflow_of (r : row) : option string :=
  match get r "workflow" with Text w => Some w | _ => None end.

(** The calendar day of the row lies in the range of the filter. *)
Definition in_days (f : FilterSpec) (r : row) : Prop :=
  match stamp_of r with
  | Some t => start_date f ≤ day_of t ≤ end_date f
  | None => False
  end.

#[global] Instance in_days_dec f r : Decision (in_days f r).
Proof. unfold in_days. destruct (stamp_of r); apply _. Defined.

(** The timestamp of the row lies in the last microsecond of its day,
    after the start of that microsecond. *)
Definition in_last_microsecond (r : row) : Prop :=
  match stamp_of r with
  | Some t => 86399999999000 < t `mod` NS_PER_DAY
  | None => False
  end.

#[global] Instance in_last_microsecond_dec r : Decision (in_last_microsecond r).
Proof. unfold in_last_microsecond. destruct (stamp_of r); apply _. Defined.

(** A filter that selects every workflow over a range without runs. *)
Definition empty_range : FilterSpec :=
  {| selected_workflows := []; start_date := 0; end_date := 1 |}.

(** ** The KPIs in the words of the specification *)

(** The filter keeps the row: its timestamp is in the range, and its
    workflow is selected unless nothing is. *)
Definition kept (f : FilterSpec) (r : row) : Prop :=
  in_range f r ∧ (selected_workflows f = [] ∨ workflow_selected f r).

#[global] Instance kept_dec f r : Decision (kept f r).
Proof. unfold kept. apply _. Defined.

(** [n] is the number of distinct values, nulls apart, that the rows [l]
    have in column [c]: some list holds each of these values once and has
    length [n]. *)
Definition distinct_count (l : list row) (c : string) (n : nat) : Prop :=
  ∃ vs : list cell,
    NoDup vs
    ∧ (∀ v, v ∈ vs ↔ v ≠ NA ∧ ∃ r, r ∈ l ∧ get r c = v)
    ∧ length vs = n.

(** ** Examples of floats *)

(** A run of 34.5 seconds, in minutes. *)
Definition HALF_MINUTE_RUN : cell := div60 (Num (Q2Qc (69 # 2))).

(** ** The date range offered by default (lines 87-96) *)

(** [Timestamp.to_pydatetime()]: a Python datetime has microsecond
    resolution, and what a timestamp holds below the microsecond is
    dropped. *)
Definition to_pydatetime (t : Z) : Z := t `div` 1000 * 1000.

(** [datetime.date()], as a number of days since 1970-01-01 *)
Definition date (t : Z) : Z := day_of t.

(** [df["timestamp"].min()] and [.max()] as Python datetimes; [None] when
    the column holds no timestamp. *)
Definition min_dt (df : DataFrame) : option Z :=
  match stamps (series df "timestamp") with
  | [] => None
  | t0 :: ts => Some (to_pydatetime (foldr Z.min t0 ts))
  end.

Definition max_dt (df : DataFrame) : option Z :=
  match stamps (series df "timestamp") with
  | [] => None
  | t0 :: ts => Some (to_pydatetime (foldr Z.max t0 ts))
  end.

(** [max_dt - timedelta(days=213)] *)
Definition default_start (df : DataFrame) : option Z :=
  (λ m, m - 213 * NS_PER_DAY) <$> max_dt df.

(** The [value] of the date input:
    [(default_start.date(), max_dt.date())]. *)
Definition default_dates (df : DataFrame) : option (Z * Z) :=
  match default_start df, max_dt df with
  | Some s, Some m => Some (date s, date m)
  | _, _ => None
  end.

(** * Properties *)

(** ** Filter *)

Lemma mask_in_range f r :
  ge_dt (get r "timestamp") (start_dt f) && le_dt (get r "timestamp") (end_dt f)
  ↔ in_range f r.
Proof.
  unfold in_range, ge_dt, le_dt, start_dt, end_dt, combine_min, combine_max.
  destruct (get r "timestamp"); simpl; try tauto.
  rewrite andb_True, !bool_decide_spec. unfold NS_PER_DAY, NS_PER_SECOND. lia.
Qed.

Lemma isin_workflow_selected f r :
  isin (get r "workflow") (selected_workflows f) ↔ workflow_selected f r.
Proof.
  unfold isin, workflow_selected.
  destruct (get r "workflow"); simpl; try tauto. apply bool_decide_spec.
Qed.

Lemma mask_nonempty f r :
  selected_workflows f ≠ [] →
  mask f r ↔ in_range f r ∧ workflow_selected f r.
Proof.
  intros Hsel. unfold mask. destruct (selected_workflows f) eqn:E; [done|].
  rewrite andb_True, mask_in_range, <- E, isin_workflow_selected. done.
Qed.

Lemma mask_empty f r :
  selected_workflows f = [] → mask f r ↔ in_range f r.
Proof. intros Hsel. unfold mask. rewrite Hsel. apply mask_in_range. Qed.

Lemma mask_stamp f r : mask f r → is_Some (stamp_of r).
Proof.
  unfold mask, stamp_of, ge_dt.
  destruct (get r "timestamp"), (selected_workflows f); simpl; try tauto; eauto.
Qed.

(** C1, as the script has it: with an empty selection the workflow test is
    left out, so the subset is every row whose timestamp is in the range. *)
Theorem filter_empty_selection (df : DataFrame) (f : FilterSpec) :
  selected_workflows f = [] →
  rows (filtered df f) = filter (in_range f) (rows df).
Proof.
  intros Hsel. unfold filtered, loc. simpl.
  apply list_filter_iff. intros r. by apply mask_empty.
Qed.

Lemma filter_empty_selection_witness :
  rows (filtered sample_df (full_range [])) = filter (in_range (full_range [])) (rows sample_df).
Proof. apply (filter_empty_selection sample_df (full_range [])). reflexivity. Defined.

(** C1 as stated fails: an empty selection does not give an empty subset. *)
Lemma empty_selection_selects_all :
  ¬ (∀ df f, selected_workflows f = [] → rows (filtered df f) = []).
Proof.
  intros H. specialize (H sample_df (full_range []) eq_refl).
  apply (f_equal length) in H. vm_compute in H. discriminate H.
Qed.

(** C2: with a non-empty selection the subset is exactly the rows, in their
    order, whose timestamp is in the inclusive range and whose workflow is
    selected. *)
Theorem filter_selected (df : DataFrame) (f : FilterSpec) :
  selected_workflows f ≠ [] →
  rows (filtered df f)
  = filter (λ r, in_range f r ∧ workflow_selected f r) (rows df)
  ∧ columns (filtered df f) = columns df.
Proof.
  intros Hsel. split; [|done]. unfold filtered, loc. simpl.
  apply list_filter_iff. intros r. by apply mask_nonempty.
Qed.

Lemma filter_selected_witness :
  rows (filtered sample_df (full_range ["A"]))
  = filter (λ r, in_range (full_range ["A"]) r
                 ∧ workflow_selected (full_range ["A"]) r) (rows sample_df)
  ∧ columns (filtered sample_df (full_range ["A"])) = columns sample_df.
Proof. apply (filter_selected sample_df (full_range ["A"])). discriminate. Defined.

(** ** KPIs *)

(** [nunique] counts the distinct non-null values: any duplicate-free
    list of exactly those values has that length. *)
Lemma nunique_spec (s l : list cell) :
  NoDup l → (∀ c, c ∈ l ↔ c ≠ NA ∧ c ∈ s) → nunique s = length l.
Proof.
  intros Hnd Hl. unfold nunique. apply Permutation_length.
  apply NoDup_Permutation; [apply NoDup_remove_dups | done |].
  intros c. rewrite elem_of_remove_dups, list_elem_of_filter, Hl.
  split; intros [H1 H2]; (split; [|done]).
  - by intros ->.
  - by destruct c.
Qed.

Lemma nunique_mono (s1 s2 : list cell) :
  s1 ⊆ s2 → (nunique s1 ≤ nunique s2)%nat.
Proof.
  intros Hsub. unfold nunique. apply submseteq_length, NoDup_submseteq.
  - apply NoDup_remove_dups.
  - intros c. rewrite !elem_of_remove_dups, !list_elem_of_filter.
    intros [? ?]. split; [done|]. by apply Hsub.
Qed.

Lemma series_loc_subseteq df m c : series (loc df m) c ⊆ series df c.
Proof.
  unfold series, loc. simpl. intros x. rewrite !list_elem_of_fmap.
  intros (r & -> & Hr). exists r. split; [done|].
  by apply list_elem_of_filter in Hr as [_ ?].
Qed.

Lemma active_workflows_nunique flt :
  active_workflows flt = nunique (series flt "workflow").
Proof.
  unfold active_workflows, df_empty, series. by destruct (rows flt).
Qed.

Lemma active_branches_nunique flt :
  active_branches flt = nunique (series flt "branch").
Proof.
  unfold active_branches, df_empty, series. by destruct (rows flt).
Qed.

Lemma nunique_distinct (l : list row) (c : string) :
  distinct_count l c (nunique (map (λ r, get r c) l)).
Proof.
  exists (remove_dups (filter (λ v, notna v) (map (λ r, get r c) l))).
  split; [apply NoDup_remove_dups|]. split; [|done].
  intros v. rewrite elem_of_remove_dups, list_elem_of_filter, list_elem_of_fmap.
  split.
  - intros [Hv (r & -> & Hr)]. split; [|by exists r].
    intros E. by rewrite E in Hv.
  - intros [Hv (r & Hr & <-)]. split; [|by exists r].
    by destruct (get r c).
Qed.

Lemma distinct_count_nil (c : string) (n : nat) : distinct_count [] c n → n = 0%nat.
Proof.
  intros (vs & _ & Hvs & <-). destruct vs as [|v vs]; [done|].
  destruct (proj1 (Hvs v)) as [_ (r & Hr & _)]; [left|].
  by apply elem_of_nil in Hr.
Qed.

Lemma mask_kept f r : mask f r ↔ kept f r.
Proof.
  unfold kept. destruct (selected_workflows f) as [|w ws] eqn:E.
  - rewrite mask_empty by done. tauto.
  - rewrite mask_nonempty by (by rewrite E). rewrite <- E.
    split; [tauto|]. intros [? [Hnil|?]]; [|done]. by rewrite E in Hnil.
Qed.

(** C5: the run count is the number of rows of the record set that the
    filter keeps, which are the rows of the subset; the active workflows
    and branches are the numbers of distinct non-null workflows and
    branches of the subset, both 0 for an empty subset, and neither exceeds
    the number of distinct workflows or branches of the record set. *)
Theorem kpi_counts (df : DataFrame) (f : FilterSpec) :
  ∃ nw nb Nw Nb : nat,
    rows (filtered df f) = filter (kept f) (rows df)
    ∧ k_total_runs (kpis (filtered df f))
      = Count (length (filter (kept f) (rows df)))
    ∧ k_active_workflows (kpis (filtered df f)) = Count nw
    ∧ k_active_branches (kpis (filtered df f)) = Count nb
    ∧ distinct_count (rows (filtered df f)) "workflow" nw
    ∧ distinct_count (rows (filtered df f)) "branch" nb
    ∧ (rows (filtered df f) = [] → nw = 0%nat ∧ nb = 0%nat)
    ∧ distinct_count (rows df) "workflow" Nw
    ∧ distinct_count (rows df) "branch" Nb
    ∧ (nw ≤ Nw)%nat ∧ (nb ≤ Nb)%nat.
Proof.
  exists (nunique (series (filtered df f) "workflow")),
         (nunique (series (filtered df f) "branch")),
         (nunique (series df "workflow")), (nunique (series df "branch")).
  assert (Hrows : rows (filtered df f) = filter (kept f) (rows df)).
  { unfold filtered, loc. cbn [rows]. apply list_filter_iff.
    intros r. apply mask_kept. }
  split_and!.
  - exact Hrows.
  - unfold kpis, total_runs. cbn [k_total_runs]. by rewrite Hrows.
  - unfold kpis. cbn [k_active_workflows]. by rewrite active_workflows_nunique.
  - unfold kpis. cbn [k_active_branches]. by rewrite active_branches_nunique.
  - apply nunique_distinct.
  - apply nunique_distinct.
  - intros Hnil. split.
    + apply (distinct_count_nil "workflow"). rewrite <- Hnil.
      apply nunique_distinct.
    + apply (distinct_count_nil "branch"). rewrite <- Hnil.
      apply nunique_distinct.
  - apply nunique_distinct.
  - apply nunique_distinct.
  - apply nunique_mono, series_loc_subseteq.
  - apply nunique_mono, series_loc_subseteq.
Qed.

(** ** Daily series *)

Lemma foldr_min_spec t0 l :
  foldr Z.min t0 l ∈ t0 :: l ∧ ∀ t, t ∈ t0 :: l → foldr Z.min t0 l ≤ t.
Proof.
  induction l as [|x l [IHin IHle]]; simpl.
  - split; [left|]. intros t Ht. apply list_elem_of_singleton in Ht. lia.
  - split.
    + destruct (Z.min_spec x (foldr Z.min t0 l)) as [[_ ->]|[_ ->]].
      * right. left.
      * apply elem_of_cons in IHin as [->|?]; [left|right; by right].
    + intros t Ht. assert (t = x ∨ t ∈ t0 :: l) as [->|?].
      { rewrite !elem_of_cons in Ht. rewrite elem_of_cons. tauto. }
      * lia.
      * specialize (IHle t H). lia.
Qed.

Lemma foldr_max_spec t0 l :
  foldr Z.max t0 l ∈ t0 :: l ∧ ∀ t, t ∈ t0 :: l → t ≤ foldr Z.max t0 l.
Proof.
  induction l as [|x l [IHin IHle]]; simpl.
  - split; [left|]. intros t Ht. apply list_elem_of_singleton in Ht. lia.
  - split.
    + destruct (Z.max_spec x (foldr Z.max t0 l)) as [[_ ->]|[_ ->]].
      * apply elem_of_cons in IHin as [->|?]; [left|right; by right].
      * right. left.
    + intros t Ht. assert (t = x ∨ t ∈ t0 :: l) as [->|?].
      { rewrite !elem_of_cons in Ht. rewrite elem_of_cons. tauto. }
      * lia.
      * specialize (IHle t H). lia.
Qed.

Lemma day_of_mono a b : a ≤ b → day_of a ≤ day_of b.
Proof. intros. unfold day_of. apply Z.div_le_mono; [done | lia]. Qed.

(** Counting the members of a list bin by bin over a run of consecutive
    bins counts the members that fall in the run. *)
Lemma bins_total {A} (g : A → Z) (l : list A) lo (n : nat) :
  sum_list (map (λ d, length (filter (λ t, g t = d) l)) (seqZ lo (Z.of_nat n)))
  = length (filter (λ t, lo ≤ g t < lo + Z.of_nat n) l).
Proof.
  induction n as [|n IH].
  - rewrite seqZ_nil by lia. simpl.
    induction l as [|x l IHl]; [done|].
    rewrite filter_cons_False by lia. done.
  - rewrite seqZ_S, map_app, sum_list_with_app, IH. simpl.
    clear IH. induction l as [|x l IHl]; [done|].
    rewrite !filter_cons. repeat case_decide; simpl in *; lia.
Qed.

Lemma resample_D_size_spec (ts : list Z) :
  ts ≠ [] →
  ∃ tmin tmax,
    tmin ∈ ts ∧ tmax ∈ ts ∧ (∀ t, t ∈ ts → tmin ≤ t ≤ tmax)
    ∧ resample_D_size ts
      = map (λ d, (d * NS_PER_DAY, length (filter (λ t, day_of t = d) ts)))
            (seqZ (day_of tmin) (day_of tmax - day_of tmin + 1)).
Proof.
  destruct ts as [|t0 ts']; [done|]. intros _.
  destruct (foldr_min_spec t0 ts') as [Hmin1 Hmin2].
  destruct (foldr_max_spec t0 ts') as [Hmax1 Hmax2].
  exists (foldr Z.min t0 ts'), (foldr Z.max t0 ts').
  split_and!; try done.
  intros t Ht. split; [by apply Hmin2 | by apply Hmax2].
Qed.

Lemma filter_all {A} (P : A → Prop) `{∀ x, Decision (P x)} (l : list A) :
  (∀ x, x ∈ l → P x) → filter P l = l.
Proof.
  induction l as [|x l IH]; intros Hall; [done|].
  rewrite filter_cons_True by (apply Hall; left).
  f_equal. apply IH. intros y Hy. apply Hall. by right.
Qed.

Lemma resample_D_size_total (ts : list Z) :
  sum_list (resample_D_size ts).*2 = length ts.
Proof.
  destruct ts as [|t0 ts']; [done|].
  destruct (foldr_min_spec t0 ts') as [Hmin1 Hmin2].
  destruct (foldr_max_spec t0 ts') as [Hmax1 Hmax2].
  unfold resample_D_size.
  set (lo := day_of (foldr Z.min t0 ts')). set (hi := day_of (foldr Z.max t0 ts')).
  assert (lo ≤ hi) by (apply day_of_mono, Hmin2, Hmax1).
  rewrite <- list_fmap_compose.
  replace (hi - lo + 1) with (Z.of_nat (Z.to_nat (hi - lo + 1))) by lia.
  etrans; [apply (bins_total day_of (t0 :: ts') lo)|].
  f_equal. apply filter_all. intros t Ht.
  pose proof (day_of_mono _ _ (Hmin2 t Ht)).
  pose proof (day_of_mono _ _ (Hmax2 t Ht)). lia.
Qed.

Lemma stamps_series df :
  stamps (series df "timestamp") = omap stamp_of (rows df).
Proof.
  unfold series, stamps, stamp_of. induction (rows df) as [|r l IH]; [done|].
  simpl. destruct (get r "timestamp"); simpl; by rewrite ?IH; f_equal.
Qed.

Lemma length_filter_stamps (d : Z) (l : list row) :
  length (filter (λ t, day_of t = d) (omap stamp_of l))
  = length (filter (on_day d) l).
Proof.
  induction l as [|r l IH]; [done|]. simpl.
  rewrite (filter_cons (on_day d) r).
  destruct (stamp_of r) as [t|] eqn:E; simpl.
  - rewrite filter_cons.
    assert (on_day d r ↔ day_of t = d) as Hiff.
    { unfold on_day. rewrite E. simpl. split; congruence. }
    repeat case_decide; simpl; try tauto; first [exact IH | f_equal; exact IH].
  - case_decide as Hd; [|done]. unfold on_day in Hd. by rewrite E in Hd.
Qed.

Lemma filtered_stamps df f :
  length (omap stamp_of (rows (filtered df f))) = length (rows (filtered df f)).
Proof.
  unfold filtered, loc. simpl.
  induction (rows df) as [|r l IH]; [done|].
  rewrite filter_cons. case_decide as Hm; [|done]. simpl.
  destruct (mask_stamp _ _ Hm) as [t ->]. simpl. f_equal. exact IH.
Qed.

(** C7: for a non-empty subset the daily series is one pair per calendar
    day, in chronological order, from the day of the earliest timestamp of
    the subset to the day of the latest; each pair holds the midnight of
    its day and the number of rows of the subset on that day, zero for a
    day without rows; the counts add up to [total_runs]. *)
Theorem daily_series (df : DataFrame) (f : FilterSpec) :
  rows (filtered df f) ≠ [] →
  ∃ tmin tmax,
    Stamp tmin ∈ series (filtered df f) "timestamp"
    ∧ Stamp tmax ∈ series (filtered df f) "timestamp"
    ∧ (∀ t, Stamp t ∈ series (filtered df f) "timestamp" → tmin ≤ t ≤ tmax)
    ∧ daily (filtered df f)
      = map (λ d, (d * NS_PER_DAY,
                   length (filter (on_day d) (rows (filtered df f)))))
            (seqZ (day_of tmin) (day_of tmax - day_of tmin + 1))
    ∧ sum_list (daily (filtered df f)).*2 = total_runs (filtered df f).
Proof.
  intros Hne. set (flt := filtered df f) in *.
  assert (Hmem : ∀ t, t ∈ merge_sort Z.le (stamps (series flt "timestamp"))
                      ↔ Stamp t ∈ series flt "timestamp").
  { intros t. rewrite merge_sort_Permutation.
    unfold stamps. rewrite list_elem_of_omap. split.
    - intros (c & Hc & Hs). by destruct c; simplify_eq.
    - intros Hc. by exists (Stamp t). }
  destruct (resample_D_size_spec (merge_sort Z.le (stamps (series flt "timestamp"))))
    as (tmin & tmax & Hmin & Hmax & Hall & Heq).
  { intros Hnil. apply (f_equal length) in Hnil.
    rewrite merge_sort_Permutation, stamps_series in Hnil.
    unfold flt in Hnil. rewrite filtered_stamps in Hnil.
    apply Hne. unfold flt. by apply length_zero_iff_nil. }
  exists tmin, tmax. split_and!.
  - by apply Hmem.
  - by apply Hmem.
  - intros t Ht. by apply Hall, Hmem.
  - unfold daily. rewrite Heq. apply map_ext. intros d. f_equal.
    rewrite merge_sort_Permutation, stamps_series. apply length_filter_stamps.
  - unfold daily. rewrite resample_D_size_total, merge_sort_Permutation.
    rewrite stamps_series. apply filtered_stamps.
Qed.

Lemma daily_series_witness :
  ∃ tmin tmax,
    Stamp tmin ∈ series (filtered sample_df (full_range ["A"])) "timestamp"
    ∧ Stamp tmax ∈ series (filtered sample_df (full_range ["A"])) "timestamp"
    ∧ (∀ t, Stamp t ∈ series (filtered sample_df (full_range ["A"])) "timestamp"
            → tmin ≤ t ≤ tmax)
    ∧ daily (filtered sample_df (full_range ["A"]))
      = map (λ d, (d * NS_PER_DAY,
                   length (filter (on_day d)
                             (rows (filtered sample_df (full_range ["A"]))))))
            (seqZ (day_of tmin) (day_of tmax - day_of tmin + 1))
    ∧ sum_list (daily (filtered sample_df (full_range ["A"]))).*2
      = total_runs (filtered sample_df (full_range ["A"])).
Proof.
  apply (daily_series sample_df (full_range ["A"])).
  intros H. apply (f_equal length) in H. vm_compute in H. discriminate H.
Defined.

(** ** Rounding *)

Lemma Qc_eq_iff (x y : Qc) : x = y ↔ (x == y)%Q.
Proof. split; [by intros ->|apply Qc_is_canon]. Qed.

Ltac qc2q :=
  rewrite ?Qc_eq_iff in *;
  unfold Qcle, Qclt, Qcdiv, Qcminus, Qcplus, Qcmult, Qcopp, Qcinv, Qc_of_Z, Q2Qc in *;
  cbn [this] in *;
  rewrite ?Qred_correct in *;
  change (/ (1 + 1))%Q with (1 # 2)%Q in *.

Lemma floor_le (q : Qc) : (Qc_of_Z (Qfloor q) ≤ q)%Qc.
Proof. qc2q. apply Qfloor_le. Qed.
Lemma floor_lt (q : Qc) : (q < Qc_of_Z (Qfloor q + 1))%Qc.
Proof. qc2q. apply Qlt_floor. Qed.

Lemma rint_close (q : Qc) :
  (q - 1/2 ≤ Qc_of_Z (rint q) ≤ q + 1/2)%Qc.
Proof.
  pose proof (floor_le q) as H1. pose proof (floor_lt q) as H2.
  rewrite Z2Qc_inj_add, Z2Qc_inj_1 in H2.
  unfold rint.
  destruct (decide (q - Qc_of_Z (Qfloor q) < 1 / 2)%Qc) as [Hlt|Hnlt].
  - generalize dependent (Qc_of_Z (Qfloor q)); intros F; intros.
    qc2q. lra.
  - apply Qcnot_lt_le in Hnlt.
    destruct (decide (1 / 2 < q - Qc_of_Z (Qfloor q))%Qc) as [Hgt|Hngt].
    + rewrite Z2Qc_inj_add, Z2Qc_inj_1.
      generalize dependent (Qc_of_Z (Qfloor q)); intros F; intros.
      qc2q. lra.
    + apply Qcnot_lt_le in Hngt.
      destruct (Z.even (Qfloor q)); rewrite ?Z2Qc_inj_add, ?Z2Qc_inj_1;
        generalize dependent (Qc_of_Z (Qfloor q)); intros F; intros;
        qc2q; lra.
Qed.


Lemma rint_Z (k : Z) : rint (Qc_of_Z k) = k.
Proof.
  unfold rint.
  assert (Hf : Qfloor (Qc_of_Z k) = k).
  { apply Qfloor_Z. }
  rewrite Hf. rewrite decide_True; [done|].
  replace (Qc_of_Z k - Qc_of_Z k)%Qc with 0%Qc by ring. done.
Qed.

Lemma rint_ge (k : Z) (q : Qc) : (Qc_of_Z k ≤ q)%Qc → k ≤ rint q.
Proof.
  intros Hk. assert (Hf : k ≤ Qfloor q).
  { rewrite <- (Qfloor_Z k). apply Qfloor_resp_le. revert Hk. qc2q. done. }
  unfold rint. repeat case_decide; try lia. destruct (Z.even _); lia.
Qed.

Lemma rint_le (k : Z) (q : Qc) : (q ≤ Qc_of_Z k)%Qc → rint q ≤ k.
Proof.
  intros Hk. assert (Hf : Qfloor q ≤ k).
  { rewrite <- (Qfloor_Z k). apply Qfloor_resp_le. revert Hk. qc2q. done. }
  destruct (decide (Qfloor q = k)) as [He|Hne].
  - pose proof (floor_le q) as Hfl. rewrite He in Hfl.
    assert (Hq : q = Qc_of_Z k) by (by apply Qcle_antisym).
    rewrite Hq. by rewrite rint_Z.
  - unfold rint. repeat case_decide; try lia. destruct (Z.even _); lia.
Qed.

(** *** binary64: the error of one operation *)

Lemma pow2_Q (e : Z) : (this (pow2 e) == 2 ^ e)%Q.
Proof. unfold pow2, Q2Qc. cbn [this]. apply Qred_correct. Qed.

Lemma pow2_pos (e : Z) : (0 < pow2 e)%Qc.
Proof.
  unfold Qclt. rewrite pow2_Q. cbn [this Q2Qc].
  apply Qpower_0_lt. reflexivity.
Qed.

Lemma pow2_add (a b : Z) : pow2 (a + b) = (pow2 a * pow2 b)%Qc.
Proof.
  apply Qc_is_canon. unfold Qcmult, Q2Qc. cbn [this].
  rewrite Qred_correct, !pow2_Q. apply Qpower_plus. discriminate.
Qed.

Lemma pow2_Z (e : Z) : 0 ≤ e → pow2 e = Qc_of_Z (2 ^ e).
Proof.
  intros He. apply Qc_is_canon. rewrite pow2_Q. unfold Qc_of_Z. cbn [this].
  by rewrite Zpower_Qpower.
Qed.

Lemma pow2_le (a b : Z) : a ≤ b → (pow2 a ≤ pow2 b)%Qc.
Proof.
  intros Hab. unfold Qcle. rewrite !pow2_Q.
  apply Qpower_le_compat_l; [done|]. discriminate.
Qed.

Lemma pow2_lt_inv (a b : Z) : (pow2 a < pow2 b)%Qc → a < b.
Proof.
  intros H. destruct (decide (a < b)) as [|Hn]; [done|]. exfalso.
  assert (Hle : (pow2 b ≤ pow2 a)%Qc) by (apply pow2_le; lia).
  by apply Qcle_not_lt in Hle.
Qed.

Lemma Zfrac_le (A B n : Z) (d : positive) :
  0 < B → A * Z.pos d ≤ n * B → (inject_Z A / inject_Z B <= n # d)%Q.
Proof.
  intros HB H. destruct B as [|p|p]; try lia.
  unfold Qle, Qdiv, Qmult, Qinv, inject_Z. simpl. lia.
Qed.

Lemma Zfrac_lt (A B n : Z) (d : positive) :
  0 < B → n * B < A * Z.pos d → (n # d < inject_Z A / inject_Z B)%Q.
Proof.
  intros HB H. destruct B as [|p|p]; try lia.
  unfold Qlt, Qdiv, Qmult, Qinv, inject_Z. simpl. lia.
Qed.

Lemma Qpower2_frac (a b : Z) :
  0 ≤ a → 0 ≤ b → (2 ^ (a - b) == inject_Z (2 ^ a) / inject_Z (2 ^ b))%Q.
Proof.
  intros Ha Hb. rewrite Qpower_minus by discriminate.
  by rewrite !Zpower_Qpower.
Qed.

Lemma ilog2_spec (x : Qc) :
  (0 < x)%Qc → (pow2 (ilog2 x) ≤ x)%Qc ∧ (x < pow2 (ilog2 x + 1))%Qc.
Proof.
  intros Hx. unfold ilog2.
  set (n := Qnum x). set (d := Qden x).
  assert (Hn : 0 < n).
  { unfold Qclt, Qlt in Hx. simpl in Hx. fold n in Hx. lia. }
  pose proof (Z.log2_spec n Hn) as [Ha1 Ha2].
  pose proof (Z.log2_spec (Z.pos d) (Pos2Z.is_pos d)) as [Hb1 Hb2].
  pose proof (Z.log2_nonneg n) as Ha0.
  pose proof (Z.log2_nonneg (Z.pos d)) as Hb0.
  set (a := Z.log2 n) in *. set (b := Z.log2 (Z.pos d)) in *.
  assert (HA : 0 < 2 ^ a) by (apply Z.pow_pos_nonneg; lia).
  assert (HB : 0 < 2 ^ b) by (apply Z.pow_pos_nonneg; lia).
  assert (Hx' : (this x == n # d)%Q) by (by destruct x as [[? ?] ?]).
  assert (Hlow : (pow2 (a - b - 1) ≤ x)%Qc).
  { unfold Qcle. rewrite pow2_Q, Hx'.
    replace (a - b - 1) with (a - (b + 1)) by lia.
    rewrite Qpower2_frac by lia. apply Zfrac_le.
    - apply Z.pow_pos_nonneg; lia.
    - rewrite Z.pow_add_r, Z.pow_1_r by lia. unfold Z.succ in *.
      rewrite Z.pow_add_r, Z.pow_1_r in Hb2 by lia. nia. }
  assert (Hhigh : (x < pow2 (a - b + 1))%Qc).
  { unfold Qclt. rewrite pow2_Q, Hx'.
    replace (a - b + 1) with ((a + 1) - b) by lia.
    rewrite Qpower2_frac by lia. apply Zfrac_lt; [done|].
    unfold Z.succ in *. nia. }
  case_decide as Hd.
  - split; [done|]. by replace (a - b + 1) with (a - b + 1) by lia.
  - split; [done|]. replace (a - b - 1 + 1) with (a - b) by lia.
    by apply Qcnot_le_lt.
Qed.

Lemma Qc_pos_ne (p : Qc) : (0 < p)%Qc → p ≠ 0%Qc.
Proof. intros Hp E. rewrite E in Hp. by apply Qclt_not_eq in Hp. Qed.

Lemma rint_mul_close (u x : Qc) :
  (0 < u)%Qc →
  (x - u / 2 ≤ Qc_of_Z (rint (x / u)) * u ≤ x + u / 2)%Qc.
Proof.
  intros Hu. pose proof (rint_close (x / u)) as [H1 H2].
  pose proof (Qc_pos_ne u Hu) as Hne.
  set (R := Qc_of_Z (rint (x / u))) in *. clearbody R.
  split.
  - replace (x - u / 2)%Qc with ((x / u - 1 / 2) * u)%Qc by (by field).
    by apply Qcmult_le_mono_pos_r.
  - replace (x + u / 2)%Qc with ((x / u + 1 / 2) * u)%Qc by (by field).
    by apply Qcmult_le_mono_pos_r.
Qed.

Lemma Qcabs_pos_lt (x : Qc) : x ≠ 0%Qc → (0 < Qcabs x)%Qc.
Proof.
  intros Hx. destruct (Qcle_lt_or_eq _ _ (Qcabs_nonneg x)) as [|E]; [done|].
  symmetry in E. by apply Qcabs_null in E.
Qed.

Lemma b64_0 : b64 0 = 0%Qc.
Proof. done. Qed.

(** The spacing of the binary64 numbers around [x]. *)
Lemma b64_ulp (x : Qc) :
  x ≠ 0%Qc →
  (pow2 (ilog2 (Qcabs x) - 52) / 2 ≤ UNIT_ROUNDOFF * Qcabs x)%Qc.
Proof.
  intros Hx. pose proof (ilog2_spec _ (Qcabs_pos_lt x Hx)) as [Hlow _].
  set (e := ilog2 (Qcabs x)) in *.
  replace (pow2 (e - 52) / 2)%Qc with (UNIT_ROUNDOFF * pow2 e)%Qc.
  - apply Qcmult_le_mono_nonneg_l; [|done]. apply Qclt_le_weak, pow2_pos.
  - unfold UNIT_ROUNDOFF. replace (e - 52) with (-53 + e + 1) by lia.
    rewrite !pow2_add. replace (pow2 1) with 2%Qc by (by apply Qc_is_canon).
    field. done.
Qed.

Lemma b64_error (x : Qc) : within (UNIT_ROUNDOFF * Qcabs x) (b64 x) x.
Proof.
  unfold within, b64. case_decide as Hx.
  - subst x. by vm_compute.
  - pose proof (b64_ulp x Hx) as Hulp.
    pose proof (rint_mul_close (pow2 (ilog2 (Qcabs x) - 52)) x (pow2_pos _))
      as [H1 H2].
    cbv zeta. set (u := pow2 (ilog2 (Qcabs x) - 52)) in *.
    set (R := (Qc_of_Z (rint (x / u)) * u)%Qc) in *. clearbody R.
    set (t := (UNIT_ROUNDOFF * Qcabs x)%Qc) in *. clearbody t u.
    split.
    + apply Qcle_trans with (x - u / 2)%Qc; [|done].
      apply Qcplus_le_mono_l. by apply Qcopp_le_compat.
    + apply Qcle_trans with (x + u / 2)%Qc; [done|].
      by apply Qcplus_le_mono_l.
Qed.

Lemma b64_nonneg (x : Qc) : (0 ≤ x)%Qc → (0 ≤ b64 x)%Qc.
Proof.
  intros Hx. unfold b64. case_decide as H0; [done|]. cbv zeta.
  set (u := pow2 (ilog2 (Qcabs x) - 52)).
  pose proof (pow2_pos (ilog2 (Qcabs x) - 52)) as Hu. fold u in Hu.
  assert (Hk : 0 ≤ rint (x / u)).
  { apply rint_ge. rewrite Z2Qc_inj_0.
    apply (Qcmult_le_mono_pos_r _ _ u Hu).
    replace (x / u * u)%Qc with x by (field; by apply Qc_pos_ne).
    by replace (0 * u)%Qc with 0%Qc by ring. }
  replace 0%Qc with (0 * u)%Qc by ring.
  apply Qcmult_le_mono_pos_r; [done|].
  rewrite <- Z2Qc_inj_0. by apply (proj1 (Z2Qc_inj_le _ _)).
Qed.

Lemma b64_le_Z (k : Z) (x : Qc) :
  (0 ≤ x)%Qc → (x ≤ Qc_of_Z k)%Qc → k < 2 ^ 53 → (b64 x ≤ Qc_of_Z k)%Qc.
Proof.
  intros Hx Hk Hk53. unfold b64. case_decide as H0.
  - subst x. rewrite <- Z2Qc_inj_0 in Hk. by rewrite <- Z2Qc_inj_0.
  - cbv zeta.
    assert (Hpos : (0 < x)%Qc).
    { destruct (Qcle_lt_or_eq _ _ Hx) as [|E]; [done|]. by symmetry in E. }
    rewrite (Qcabs_pos x Hx).
    pose proof (ilog2_spec x Hpos) as [Hlow _].
    set (e := ilog2 x) in *.
    assert (He : e < 53).
    { apply pow2_lt_inv. apply Qcle_lt_trans with x; [done|].
      apply Qcle_lt_trans with (Qc_of_Z k); [done|].
      rewrite (pow2_Z 53) by lia. by apply (proj1 (Z2Qc_inj_lt _ _)). }
    set (u := pow2 (e - 52)).
    pose proof (pow2_pos (e - 52)) as Hu. fold u in Hu.
    assert (Hinv : (pow2 (52 - e) * u)%Qc = 1%Qc).
    { unfold u. rewrite <- pow2_add. replace (52 - e + (e - 52)) with 0 by lia.
      by apply Qc_is_canon. }
    assert (Hm : (x / u ≤ Qc_of_Z (k * 2 ^ (52 - e)))%Qc).
    { rewrite Z2Qc_inj_mul, <- pow2_Z by lia.
      apply (Qcmult_le_mono_pos_r _ _ u Hu).
      replace (x / u * u)%Qc with x by (field; by apply Qc_pos_ne).
      rewrite <- Qcmult_assoc, Hinv, Qcmult_1_r. done. }
    apply rint_le in Hm.
    apply Qcle_trans with (Qc_of_Z (k * 2 ^ (52 - e)) * u)%Qc.
    + apply Qcmult_le_mono_pos_r; [done|].
      by apply (proj1 (Z2Qc_inj_le _ _)).
    + rewrite Z2Qc_inj_mul, <- pow2_Z by lia.
      rewrite <- Qcmult_assoc, Hinv, Qcmult_1_r. apply Qcle_refl.
Qed.


Lemma abs_cases (v : Qc) :
  ((0 ≤ v)%Qc ∧ Qcabs v = v) ∨ ((v ≤ 0)%Qc ∧ Qcabs v = (- v)%Qc).
Proof.
  destruct (Qclt_le_dec v 0) as [H|H].
  - right. apply Qclt_le_weak in H. split; [done|]. by apply Qcabs_neg.
  - left. split; [done|]. by apply Qcabs_pos.
Qed.

Lemma UNIT_ROUNDOFF_val : UNIT_ROUNDOFF = Q2Qc (1 # 9007199254740992).
Proof. by apply Qc_is_canon. Qed.

Lemma FLOAT_TOLERANCE_val : FLOAT_TOLERANCE = Q2Qc (1 # 8796093022208).
Proof. by apply Qc_is_canon. Qed.

Lemma Qcmult_nonneg (a b : Qc) : (0 ≤ a)%Qc → (0 ≤ b)%Qc → (0 ≤ a * b)%Qc.
Proof. intros Ha Hb. qc2q. by apply Qmult_le_0_compat. Qed.

(** *** Two decimals *)

Lemma HALF_HUNDREDTH_val : HALF_HUNDREDTH = Q2Qc (1 # 200).
Proof. by apply Qc_is_canon. Qed.

Lemma pow10_2 : pow10 2 = Qc_of_Z 100.
Proof. done. Qed.

Lemma Qcabs_100 (q : Qc) : Qcabs (q * Qc_of_Z 100) = (Qcabs q * Qc_of_Z 100)%Qc.
Proof. rewrite Qcabs_Qcmult. f_equal. Qed.

Lemma round2_chain (q y w p K : Qc) :
  within (UNIT_ROUNDOFF * (Qcabs q * Qc_of_Z 100)) y (q * Qc_of_Z 100) →
  (y - 1 / 2 ≤ K)%Qc → (K ≤ y + 1 / 2)%Qc →
  (w * Qc_of_Z 100)%Qc = K →
  within (UNIT_ROUNDOFF * Qcabs w) p w →
  within (HALF_HUNDREDTH + FLOAT_TOLERANCE * (1 + Qcabs q)) p q.
Proof.
  unfold within.
  rewrite UNIT_ROUNDOFF_val, FLOAT_TOLERANCE_val, HALF_HUNDREDTH_val.
  destruct (abs_cases q) as [[Hq ->]|[Hq ->]],
           (abs_cases w) as [[Hw ->]|[Hw ->]];
    intros; qc2q; unfold inject_Z in *; lra.
Qed.

Lemma round2_close (q : Qc) :
  ∃ k, round 2 q = b64 (Qc_of_Z k / Qc_of_Z 100)
       ∧ within (HALF_HUNDREDTH + FLOAT_TOLERANCE * (1 + Qcabs q)) (round 2 q) q.
Proof.
  unfold round. rewrite pow10_2.
  exists (rint (b64 (q * Qc_of_Z 100))). split; [done|].
  pose proof (b64_error (q * Qc_of_Z 100)) as E1. rewrite Qcabs_100 in E1.
  pose proof (rint_close (b64 (q * Qc_of_Z 100))) as [R1 R2].
  apply (round2_chain q _ (Qc_of_Z (rint (b64 (q * Qc_of_Z 100))) / Qc_of_Z 100)
           _ _ E1 R1 R2); [by field|apply b64_error].
Qed.

(** *** Rounding twice *)



(** ** Branch distribution *)

#[local] Instance runs_desc_trans : Transitive runs_desc.
Proof. intros a b c. unfold runs_desc. lia. Qed.

#[local] Instance runs_desc_total : Total runs_desc.
Proof. intros a b. unfold runs_desc. lia. Qed.

Lemma texts_series flt c b :
  b ∈ texts (series flt c) ↔ ∃ r, r ∈ rows flt ∧ get r c = Text b.
Proof.
  unfold texts, series. rewrite list_elem_of_omap. split.
  - intros (x & Hx & Hb). apply list_elem_of_fmap in Hx as (r & -> & Hr).
    exists r. split; [done|]. by destruct (get r c); simplify_eq.
  - intros (r & Hr & Hb). exists (Text b). split; [|done].
    rewrite <- Hb. apply list_elem_of_fmap. by exists r.
Qed.

Lemma count_texts flt c b :
  length (filter (λ x, x = b) (texts (series flt c)))
  = length (filter (λ r, get r c = Text b) (rows flt)).
Proof.
  unfold texts, series. induction (rows flt) as [|r l IH]; [done|].
  rewrite filter_cons. simpl. destruct (get r c) eqn:E; simpl;
    rewrite ?filter_cons; repeat case_decide; simplify_eq; simpl;
    first [exact IH | f_equal; exact IH].
Qed.

Lemma groupby_size_keys s : (groupby_size s).*1 ≡ₚ remove_dups (texts s).
Proof.
  unfold groupby_size. rewrite <- list_fmap_compose.
  rewrite <- (merge_sort_Permutation String.le (remove_dups (texts s))) at 2.
  generalize (merge_sort String.le (remove_dups (texts s))).
  intros l. induction l as [|k l IH]; [done|]. by constructor.
Qed.

Lemma groupby_size_count s kv :
  kv ∈ groupby_size s → kv.2 = length (filter (λ x, x = kv.1) (texts s)).
Proof.
  unfold groupby_size. intros (k & -> & _)%list_elem_of_fmap. done.
Qed.

Lemma runs_sum_pos flt b r :
  r ∈ rows flt → get r "branch" = Text b → (0 < runs_sum (runs_by_branch flt))%nat.
Proof.
  intros Hr Hb.
  assert (Hk : b ∈ (runs_by_branch flt).*1).
  { unfold runs_by_branch. rewrite merge_sort_Permutation, groupby_size_keys.
    apply elem_of_remove_dups, texts_series. eauto. }
  apply list_elem_of_fmap in Hk as (kv & -> & Hkv).
  assert (Hc : (0 < kv.2)%nat).
  { assert (Hkv' : kv ∈ groupby_size (series flt "branch")).
    { by rewrite <- (merge_sort_Permutation runs_desc). }
    rewrite (groupby_size_count _ _ Hkv'), count_texts.
    assert (Hin : r ∈ filter (λ r, get r "branch" = Text kv.1) (rows flt)).
    { by apply list_elem_of_filter. }
    destruct (filter _ (rows flt)); [by apply elem_of_nil in Hin | simpl; lia]. }
  unfold runs_sum.
  assert (Hin : kv.2 ∈ (runs_by_branch flt).*2).
  { apply list_elem_of_fmap. by exists kv. }
  pose proof (sum_list_with_in _ id _ Hin) as Hle.
  exact (Nat.lt_le_trans _ _ _ Hc Hle).
Qed.

Lemma pow10_1 : pow10 1 = Qc_of_Z 10.
Proof. done. Qed.

Lemma Qc_of_nat_pos (n : nat) : (0 < n)%nat → (0 < Qc_of_Z (Z.of_nat n))%Qc.
Proof.
  intros Hn. rewrite <- Z2Qc_inj_0. apply (proj1 (Z2Qc_inj_lt _ _)). lia.
Qed.

Lemma ratio_bounds (total n : nat) :
  (n ≤ total)%nat →
  (0 ≤ Qc_of_Z (Z.of_nat n) / Qc_of_Z (Z.of_nat total))%Qc
  ∧ (Qc_of_Z (Z.of_nat n) / Qc_of_Z (Z.of_nat total) ≤ 1)%Qc.
Proof.
  intros Hn. destruct total as [|t].
  - replace n with 0%nat by lia. by vm_compute.
  - assert (HT : (0 < Qc_of_Z (Z.of_nat (S t)))%Qc) by (apply Qc_of_nat_pos; lia).
    pose proof (Qc_pos_ne _ HT) as HT0.
    split.
    + apply (Qcmult_le_mono_pos_r _ _ _ HT).
      replace (Qc_of_Z (Z.of_nat n) / Qc_of_Z (Z.of_nat (S t))
               * Qc_of_Z (Z.of_nat (S t)))%Qc
        with (Qc_of_Z (Z.of_nat n)) by (by field).
      rewrite Qcmult_0_l, <- Z2Qc_inj_0.
      apply (proj1 (Z2Qc_inj_le _ _)). lia.
    + apply (Qcmult_le_mono_pos_r _ _ _ HT).
      replace (Qc_of_Z (Z.of_nat n) / Qc_of_Z (Z.of_nat (S t))
               * Qc_of_Z (Z.of_nat (S t)))%Qc
        with (Qc_of_Z (Z.of_nat n)) by (by field).
      rewrite Qcmult_1_l. apply (proj1 (Z2Qc_inj_le _ _)). lia.
Qed.

Lemma HALF_TENTH_val : HALF_TENTH = Q2Qc (1 # 20).
Proof. by apply Qc_is_canon. Qed.

Lemma percentage_chain (s q1 q2 y w p K : Qc) :
  (0 ≤ s)%Qc → (s ≤ 1)%Qc →
  within (UNIT_ROUNDOFF * s) q1 s →
  within (UNIT_ROUNDOFF * (q1 * Qc_of_Z 100)) q2 (q1 * Qc_of_Z 100) →
  within (UNIT_ROUNDOFF * (q2 * Qc_of_Z 10)) y (q2 * Qc_of_Z 10) →
  (y - 1 / 2 ≤ K)%Qc → (K ≤ y + 1 / 2)%Qc →
  (w * Qc_of_Z 10)%Qc = K →
  within (UNIT_ROUNDOFF * w) p w →
  (K < Qc_of_Z 1001)%Qc
  ∧ within (HALF_TENTH + FLOAT_TOLERANCE) p (s * Qc_of_Z 100).
Proof.
  unfold within.
  rewrite UNIT_ROUNDOFF_val, FLOAT_TOLERANCE_val, HALF_TENTH_val.
  intros. qc2q. unfold inject_Z in *. lra.
Qed.

Lemma percentage_close (total n : nat) :
  (n ≤ total)%nat →
  ∃ k, 0 ≤ k ≤ 1000
       ∧ percentage total n = b64 (Qc_of_Z k / Qc_of_Z 10)
       ∧ within (HALF_TENTH + FLOAT_TOLERANCE) (percentage total n)
                (share total n).
Proof.
  intros Hn. destruct (ratio_bounds total n Hn) as [Hs0 Hs1].
  unfold percentage, round, share. rewrite pow10_1.
  replace (Qc_of_Z 100 * Qc_of_Z (Z.of_nat n) / Qc_of_Z (Z.of_nat total))%Qc
    with (Qc_of_Z (Z.of_nat n) / Qc_of_Z (Z.of_nat total) * Qc_of_Z 100)%Qc
    by (unfold Qcdiv; ring).
  set (s := (Qc_of_Z (Z.of_nat n) / Qc_of_Z (Z.of_nat total))%Qc) in *.
  clearbody s.
  pose proof (b64_error s) as E1. rewrite (Qcabs_pos s Hs0) in E1.
  pose proof (b64_nonneg s Hs0) as N1.
  set (q1 := b64 s) in *. clearbody q1.
  assert (Hx2 : (0 ≤ q1 * Qc_of_Z 100)%Qc).
  { apply Qcmult_nonneg; [done|]. by apply (proj1 (Z2Qc_inj_le 0 100)). }
  pose proof (b64_error (q1 * Qc_of_Z 100)) as E2.
  rewrite (Qcabs_pos _ Hx2) in E2.
  pose proof (b64_nonneg _ Hx2) as N2.
  set (q2 := b64 (q1 * Qc_of_Z 100)) in *. clearbody q2.
  assert (Hx3 : (0 ≤ q2 * Qc_of_Z 10)%Qc).
  { apply Qcmult_nonneg; [done|]. by apply (proj1 (Z2Qc_inj_le 0 10)). }
  pose proof (b64_error (q2 * Qc_of_Z 10)) as E3.
  rewrite (Qcabs_pos _ Hx3) in E3.
  pose proof (b64_nonneg _ Hx3) as N3.
  set (y := b64 (q2 * Qc_of_Z 10)) in *. clearbody y.
  pose proof (rint_close y) as [R1 R2].
  assert (Hk0 : 0 ≤ rint y) by (apply rint_ge; by rewrite Z2Qc_inj_0).
  set (k := rint y) in *. clearbody k.
  assert (HK0 : (0 ≤ Qc_of_Z k)%Qc).
  { rewrite <- Z2Qc_inj_0. by apply (proj1 (Z2Qc_inj_le _ _)). }
  assert (Hw : (Qc_of_Z k / Qc_of_Z 10 * Qc_of_Z 10)%Qc = Qc_of_Z k)
    by (by field).
  assert (Hw0 : (0 ≤ Qc_of_Z k / Qc_of_Z 10)%Qc).
  { apply Qcmult_nonneg; [done|]. by vm_compute. }
  pose proof (b64_error (Qc_of_Z k / Qc_of_Z 10)) as E4.
  rewrite (Qcabs_pos _ Hw0) in E4.
  destruct (percentage_chain _ _ _ _ _ _ _ Hs0 Hs1 E1 E2 E3 R1 R2 Hw E4)
    as [HK Hclose].
  apply Z2Qc_inj_lt in HK.
  exists k. split; [lia|]. split; [reflexivity|exact Hclose].
Qed.

Lemma percentage_bounds (total n : nat) :
  (n ≤ total)%nat → (0 ≤ percentage total n ≤ Qc_of_Z 100)%Qc.
Proof.
  intros Hn. destruct (percentage_close total n Hn) as (k & [Hk0 Hk1] & -> & _).
  assert (Hw0 : (0 ≤ Qc_of_Z k / Qc_of_Z 10)%Qc).
  { apply Qcmult_nonneg; [|by vm_compute].
    rewrite <- Z2Qc_inj_0. by apply (proj1 (Z2Qc_inj_le _ _)). }
  split; [by apply b64_nonneg|].
  apply b64_le_Z; [done| |done].
  apply (Qcmult_le_mono_pos_r _ _ (Qc_of_Z 10)); [done|].
  replace (Qc_of_Z k / Qc_of_Z 10 * Qc_of_Z 10)%Qc with (Qc_of_Z k)
    by (by field).
  rewrite <- Z2Qc_inj_mul. apply (proj1 (Z2Qc_inj_le _ _)). lia.
Qed.

Lemma percentage_spec total n :
  (n ≤ total)%nat →
  one_decimal (percentage total n)
  ∧ within (HALF_TENTH + FLOAT_TOLERANCE) (percentage total n) (share total n).
Proof.
  intros Hn. destruct (percentage_close total n Hn) as (k & _ & Hk & Hc).
  split; [by exists k|done].
Qed.

Lemma share_sum total (ns : list nat) :
  Qcsum (map (share total) ns)
  = (Qc_of_Z 100 * Qc_of_Z (Z.of_nat (sum_list ns)) / Qc_of_Z (Z.of_nat total))%Qc.
Proof.
  induction ns as [|n ns IH]; unfold Qcsum in *; cbn [map foldr sum_list sum_list_with].
  - change (Z.of_nat 0) with 0. rewrite Z2Qc_inj_0. unfold Qcdiv. ring.
  - rewrite IH. unfold share. rewrite Nat2Z.inj_add, Z2Qc_inj_add.
    unfold Qcdiv, id. ring.
Qed.

Lemma share_sum_total (ns : list nat) :
  (0 < sum_list ns)%nat →
  Qcsum (map (share (sum_list ns)) ns) = Qc_of_Z 100.
Proof.
  intros Hpos. rewrite share_sum. apply Qc_of_nat_pos in Hpos.
  field. intros E. rewrite E in Hpos. by apply Qclt_not_eq in Hpos.
Qed.

Lemma within_sum (tol : Qc) (xs ys : list Qc) :
  Forall2 (within tol) xs ys →
  within (Qc_of_Z (Z.of_nat (length xs)) * tol) (Qcsum xs) (Qcsum ys).
Proof.
  induction 1 as [|x y xs ys [Hx1 Hx2] _ [IH1 IH2]]; unfold within in *;
    unfold Qcsum in *; cbn [length foldr].
  - change (Z.of_nat 0) with 0. rewrite Z2Qc_inj_0.
    replace (0 - 0 * tol)%Qc with 0%Qc by ring.
    replace (0 + 0 * tol)%Qc with 0%Qc by ring. done.
  - fold (Qcsum xs) in *. fold (Qcsum ys) in *.
    rewrite Nat2Z.inj_succ, <- Z.add_1_r, Z2Qc_inj_add, Z2Qc_inj_1.
    set (N := Qc_of_Z (Z.of_nat (length xs))) in *. clearbody N.
    set (X := Qcsum xs) in *. set (Y := Qcsum ys) in *. clearbody X Y.
    split.
    + replace (y + Y - (N + 1) * tol)%Qc with ((y - tol) + (Y - N * tol))%Qc by ring.
      by apply Qcplus_le_compat.
    + replace (y + Y + (N + 1) * tol)%Qc with ((y + tol) + (Y + N * tol))%Qc by ring.
      by apply Qcplus_le_compat.
Qed.

Lemma count_one (x : string) (keys : list string) :
  NoDup keys → x ∈ keys →
  sum_list (map (λ k, if decide (x = k) then 1%nat else 0%nat) keys) = 1%nat.
Proof.
  induction 1 as [|k keys Hk Hnd IH]; [by intros ?%elem_of_nil|].
  intros [->|Hx]%elem_of_cons; cbn [map sum_list sum_list_with]; unfold id.
  - rewrite decide_True by done.
    rewrite (sum_list_fmap_same 0%nat); [lia|].
    apply Forall_forall. intros y Hy. rewrite decide_False; [done|].
    intros E. subst. by apply list_elem_of_In in Hy.
  - rewrite decide_False by (intros E; subst; contradiction).
    exact (IH Hx).
Qed.

Lemma count_partition (keys l : list string) :
  NoDup keys → (∀ x, x ∈ l → x ∈ keys) →
  sum_list (map (λ k, length (filter (λ x, x = k) l)) keys) = length l.
Proof.
  intros Hnd. induction l as [|x l IH]; intros Hin.
  - rewrite (sum_list_fmap_same 0%nat); [simpl; lia|]. by apply Forall_true.
  - assert (Hsplit : ∀ ks,
      sum_list (map (λ k, length (filter (λ y, y = k) (x :: l))) ks)
      = (sum_list (map (λ k, if decide (x = k) then 1%nat else 0%nat) ks)
         + sum_list (map (λ k, length (filter (λ y, y = k) l)) ks))%nat).
    { induction ks as [|k ks IHk]; [done|].
      cbn [map sum_list sum_list_with] in *. unfold id in *.
      rewrite IHk, filter_cons. destruct (decide (x = k)); simpl; lia. }
    rewrite Hsplit, (count_one x keys Hnd) by (apply Hin; by left).
    rewrite IH by (intros; apply Hin; by right). done.
Qed.

Lemma length_texts flt : length (texts (series flt "branch")) = branch_rows flt.
Proof.
  unfold texts, series, branch_rows, branch_of.
  induction (rows flt) as [|r l IH]; [done|].
  rewrite filter_cons.
  simpl. destruct (get r "branch"); case_decide as Hd; simpl;
    first [ exact IH | f_equal; exact IH
          | exfalso; by destruct Hd as [? ?] | exfalso; apply Hd; by eexists ].
Qed.

Lemma runs_sum_total flt : runs_sum (runs_by_branch flt) = branch_rows flt.
Proof.
  unfold runs_sum, runs_by_branch.
  rewrite (merge_sort_Permutation runs_desc). unfold groupby_size.
  rewrite <- list_fmap_compose, merge_sort_Permutation.
  rewrite <- length_texts.
  apply (count_partition (remove_dups (texts (series flt "branch")))).
  - apply NoDup_remove_dups.
  - intros x. by rewrite elem_of_remove_dups.
Qed.

Lemma pie_slices flt :
  (0 < runs_sum (runs_by_branch flt))%nat →
  pie flt
  = Pie (map (λ kv, {| s_branch := kv.1; s_runs := kv.2;
                       s_percentage := percentage (branch_rows flt) kv.2 |})
             (runs_by_branch flt)).
Proof.
  intros Hpos. unfold pie. rewrite bool_decide_false by lia.
  by rewrite runs_sum_total.
Qed.

Lemma runs_le_total flt :
  Forall (λ n, (n ≤ branch_rows flt)%nat) (runs_by_branch flt).*2.
Proof.
  apply list.Forall_forall. intros n Hn. rewrite <- runs_sum_total.
  exact (sum_list_with_in _ id _ Hn).
Qed.

Lemma branch_rows_pos flt :
  (0 < branch_rows flt)%nat → ∃ r b, r ∈ rows flt ∧ get r "branch" = Text b.
Proof.
  unfold branch_rows. intros Hpos.
  destruct (filter (λ r, is_Some (branch_of r)) (rows flt)) as [|r l] eqn:E;
    [simpl in Hpos; lia|].
  assert (Hr : r ∈ filter (λ r, is_Some (branch_of r)) (rows flt))
    by (rewrite E; left).
  apply list_elem_of_filter in Hr as [[b Hb] Hr]. exists r, b. split; [done|].
  unfold branch_of in Hb. by destruct (get r "branch"); simplify_eq.
Qed.

Lemma branch_rows_zero flt :
  branch_rows flt = 0%nat → Forall (λ r, branch_of r = None) (rows flt).
Proof.
  unfold branch_rows. intros Hz. apply list.Forall_forall. intros r Hr.
  destruct (branch_of r) as [b|] eqn:E; [|done]. exfalso.
  assert (Hin : r ∈ filter (λ r, is_Some (branch_of r)) (rows flt)).
  { apply list_elem_of_filter. split; [by rewrite E|done]. }
  destruct (filter (λ r, is_Some (branch_of r)) (rows flt));
    [by apply elem_of_nil in Hin|discriminate Hz].
Qed.

Lemma pie_distribution flt :
  (∃ r b, r ∈ rows flt ∧ get r "branch" = Text b) →
  ∃ sl, pie flt = Pie sl ∧ distribution flt sl.
Proof.
  intros (r & b & Hr & Hb).
  pose proof (runs_sum_pos flt b r Hr Hb) as Hpos.
  eexists. split; [by apply pie_slices|].
  set (mk := λ kv : string * nat, _).
  assert (Hb1 : map s_branch (map mk (runs_by_branch flt)) = (runs_by_branch flt).*1).
  { rewrite map_map. done. }
  assert (Hr1 : map s_runs (map mk (runs_by_branch flt)) = (runs_by_branch flt).*2).
  { rewrite map_map. done. }
  assert (Hp1 : map s_percentage (map mk (runs_by_branch flt))
                = map (percentage (branch_rows flt)) (runs_by_branch flt).*2).
  { rewrite !map_map. done. }
  assert (Hkeys : (runs_by_branch flt).*1 ≡ₚ remove_dups (texts (series flt "branch"))).
  { unfold runs_by_branch. by rewrite merge_sort_Permutation, groupby_size_keys. }
  pose proof (runs_le_total flt) as Hle.
  split.
  - rewrite Hb1, Hkeys. apply NoDup_remove_dups.
  - intros k. rewrite Hb1, Hkeys, elem_of_remove_dups. apply texts_series.
  - apply Forall_fmap, Forall_forall. intros kv Hkv%list_elem_of_In. simpl.
    unfold runs_by_branch in Hkv. rewrite merge_sort_Permutation in Hkv.
    rewrite (groupby_size_count _ _ Hkv). apply count_texts.
  - apply (StronglySorted_fmap mk runs_desc); [done|].
    apply (StronglySorted_merge_sort runs_desc).
  - apply Forall_fmap, Forall_forall. intros kv Hkv%list_elem_of_In.
    apply percentage_spec. cbn [s_runs mk].
    rewrite list.Forall_forall in Hle. apply Hle.
    apply list_elem_of_fmap. by exists kv.
  - rewrite length_map, Hp1, <- (length_map snd).
    rewrite <- (length_map (percentage (branch_rows flt))).
    replace (Qc_of_Z 100)
      with (Qcsum (map (share (branch_rows flt)) (runs_by_branch flt).*2)).
    2:{ rewrite <- runs_sum_total. by apply share_sum_total. }
    apply within_sum. revert Hle.
    generalize (branch_rows flt), ((runs_by_branch flt).*2). intros T ns Hle.
    induction Hle as [|n ns Hn Hns IH]; constructor; [|done].
    by apply percentage_spec.
Qed.

(** C6, as the script has it: for a subset that is not empty the charts
    block shows one of two things.  When some row has a branch it shows the
    pie, which lists every branch of the subset once with its number of
    rows, in descending order of that number; each percentage is the float
    nearest to a whole number of tenths and lies within 0.05, up to the
    error of the floating-point operations, of the exact share of the
    branch among the rows that have a branch; the percentages add up to 100
    within that tolerance per branch.  When no row has a branch it shows
    the warning in place of the pie. *)
Theorem branch_distribution (df : DataFrame) (f : FilterSpec) :
  rows (filtered df f) ≠ [] →
  (∃ sl, fst <$> charts (filtered df f) = Some (Pie sl)
         ∧ (∃ r b, r ∈ rows (filtered df f) ∧ get r "branch" = Text b)
         ∧ distribution (filtered df f) sl)
  ∨ (fst <$> charts (filtered df f) = Some NoRunsWarning
     ∧ Forall (λ r, branch_of r = None) (rows (filtered df f))).
Proof.
  intros Hne. set (flt := filtered df f) in *.
  assert (Hc : fst <$> charts flt = Some (pie flt)).
  { unfold charts, df_empty. by destruct (rows flt). }
  rewrite Hc. destruct (decide (branch_rows flt = 0%nat)) as [Hz|Hnz].
  - right. split; [|by apply branch_rows_zero].
    f_equal. unfold pie. rewrite runs_sum_total. by rewrite bool_decide_true.
  - left. assert (Hb : ∃ r b, r ∈ rows flt ∧ get r "branch" = Text b)
      by (apply branch_rows_pos; lia).
    destruct (pie_distribution flt Hb) as (sl & Hpie & Hd).
    exists sl. by rewrite Hpie.
Qed.

Lemma branch_distribution_witness :
  (∃ sl, fst <$> charts (filtered sample_df (full_range [])) = Some (Pie sl)
         ∧ (∃ r b, r ∈ rows (filtered sample_df (full_range []))
                   ∧ get r "branch" = Text b)
         ∧ distribution (filtered sample_df (full_range [])) sl)
  ∨ (fst <$> charts (filtered sample_df (full_range [])) = Some NoRunsWarning
     ∧ Forall (λ r, branch_of r = None)
              (rows (filtered sample_df (full_range [])))).
Proof.
  apply (branch_distribution sample_df (full_range [])).
  intros H. apply (f_equal length) in H. vm_compute in H. discriminate H.
Defined.

(** The pie of the three sample runs: two thirds and one third of the runs,
    shown as 66.7 and 33.3; and the share of 23 runs among 80, 28.75, is
    shown as 28.7, the product with 100 falling below the tie in binary64. *)
Lemma pie_sample :
  pie (filtered sample_df (full_range []))
  = Pie [{| s_branch := "X"; s_runs := 2;
            s_percentage := b64 (Qc_of_Z 667 / Qc_of_Z 10) |};
         {| s_branch := "Y"; s_runs := 1;
            s_percentage := b64 (Qc_of_Z 333 / Qc_of_Z 10) |}]
  ∧ percentage 80 23 = b64 (Qc_of_Z 287 / Qc_of_Z 10).
Proof. split; by vm_compute. Qed.

(** C6 as stated fails: a subset whose rows all lack a branch is not empty
    and has no distribution; the script shows a warning in its place. *)
Lemma no_distribution_without_branch :
  ¬ (∀ df f, rows (filtered df f) ≠ [] →
       ∃ sl, pie (filtered df f) = Pie sl ∧ distribution (filtered df f) sl).
Proof.
  intros H. destruct (H null_branch_df (full_range [])) as (sl & Hpie & _).
  - intros Hnil. apply (f_equal length) in Hnil. vm_compute in Hnil.
    discriminate Hnil.
  - vm_compute in Hpie. discriminate Hpie.
Qed.

(** ** The rendering pass on the store *)

Lemma table_script_spec (l : nat) (flt : DataFrame) (h : store) :
  h !! l = Some flt →
  (table_script l h).1 = table_df flt
  ∧ ∀ k d, h !! k = Some d → (table_script l h).2 !! k = Some d.
Proof.
  intros Hl. unfold table_script, table_df, mbind, script_bind, read.
  rewrite Hl. simpl. destruct (df_empty flt); [done|].
  unfold alloc, assign, mret, script_ret. simpl.
  set (t := fresh (dom h)).
  assert (Ht : h !! t = None) by apply not_elem_of_dom, is_fresh.
  split.
  - by rewrite !lookup_alter_eq, lookup_insert_eq.
  - intros k d Hk. assert (t ≠ k) by (intros ->; congruence).
    by rewrite !lookup_alter_ne, lookup_insert_ne.
Qed.

Lemma render_script_spec (f : FilterSpec) (l : nat) (df : DataFrame) (h : store) :
  h !! l = Some df →
  ∃ h', render_script f l h = (render df f, h')
        ∧ ∀ k d, h !! k = Some d → h' !! k = Some d.
Proof.
  intros Hl. set (t := fresh (dom h)).
  assert (Ht : h !! t = None) by apply not_elem_of_dom, is_fresh.
  destruct (table_script_spec t (loc df (mask f)) (<[t:=loc df (mask f)]> h))
    as [Htab Hkeep]; [apply lookup_insert_eq|].
  destruct (table_script t (<[t:=loc df (mask f)]> h)) as [tbl h'] eqn:E.
  simpl in Htab, Hkeep. subst tbl. exists h'. split.
  - unfold render_script, mbind, script_bind, read, alloc.
    rewrite Hl. cbn [default]. fold t. rewrite lookup_insert_eq. cbn [default].
    unfold id. by rewrite E.
  - intros k d Hk. apply Hkeep. assert (t ≠ k) by (intros ->; congruence).
    by rewrite lookup_insert_ne.
Qed.

(** C10: the outputs of a rendering pass are those of the function [render]
    of the record set and the filter, whatever the store it runs in and
    wherever the record set is held, so two passes on equal record sets and
    equal filters give equal outputs; the pass leaves the record set, and
    every other frame the store already held, as it was. *)
Theorem render_deterministic (f : FilterSpec) (df : DataFrame)
    (h1 h2 : store) (l1 l2 : nat) :
  h1 !! l1 = Some df → h2 !! l2 = Some df →
  (render_script f l1 h1).1 = render df f
  ∧ (render_script f l1 h1).1 = (render_script f l2 h2).1
  ∧ (render_script f l1 h1).2 !! l1 = Some df
  ∧ ∀ k d, h1 !! k = Some d → (render_script f l1 h1).2 !! k = Some d.
Proof.
  intros H1 H2.
  destruct (render_script_spec f l1 df h1 H1) as (h1' & E1 & K1).
  destruct (render_script_spec f l2 df h2 H2) as (h2' & E2 & _).
  rewrite E1, E2. simpl. split_and!; [done|done|by apply K1|done].
Qed.

Lemma render_deterministic_witness :
  (render_script (full_range ["A"]) 0 sample_store).1
  = render sample_df (full_range ["A"])
  ∧ (render_script (full_range ["A"]) 0 sample_store).1
    = (render_script (full_range ["A"]) 5 busy_store).1
  ∧ (render_script (full_range ["A"]) 0 sample_store).2 !! 0%nat = Some sample_df
  ∧ ∀ k d, sample_store !! k = Some d
           → (render_script (full_range ["A"]) 0 sample_store).2 !! k = Some d.
Proof.
  apply (render_deterministic (full_range ["A"]) sample_df
           sample_store busy_store 0 5); reflexivity.
Defined.

(** ** The calendar of [strftime] *)

Lemma days_before_month_table (y m : Z) :
  1 ≤ m ≤ 12 →
  let l := if is_leap y then 1 else 0 in
  days_before_month y m
  = if bool_decide (m ≤ 2) then 31 * (m - 1)
    else (153 * (m - 3) + 2) `div` 5 + 59 + l.
Proof.
  intros Hm.
  assert (Hc : m = 1 ∨ m = 2 ∨ m = 3 ∨ m = 4 ∨ m = 5 ∨ m = 6 ∨ m = 7
               ∨ m = 8 ∨ m = 9 ∨ m = 10 ∨ m = 11 ∨ m = 12) by lia.
  unfold days_before_month, days_in_month.
  destruct_or!; subst m; destruct (is_leap y); reflexivity.
Qed.

Lemma civil_from_days_spec (d : Z) :
  ∃ y m dd, civil_from_days d = (y, m, dd)
            ∧ valid_date y m dd ∧ date_to_days y m dd = d.
Proof.
  unfold civil_from_days.
  remember (d + 719468) as z eqn:Hz.
  remember (z `div` 146097) as era eqn:Hera.
  remember (z - era * 146097) as doe eqn:Hdoe.
  remember ((doe - doe `div` 1460 + doe `div` 36524 - doe `div` 146096) `div` 365)
    as yoe eqn:Hyoe.
  remember (doe - (365 * yoe + yoe `div` 4 - yoe `div` 100)) as doy eqn:Hdoy.
  remember ((5 * doy + 2) `div` 153) as mp eqn:Hmp.
  cbv zeta.
  assert (Hb : 0 ≤ doe ≤ 146096) by (subst; Z.div_mod_to_equations; lia).
  assert (Hy : 0 ≤ yoe ≤ 399 ∧ 0 ≤ doy ≤ 365)
    by (subst yoe doy; Z.div_mod_to_equations; lia).
  assert (Hp : 0 ≤ mp ≤ 11) by (subst mp; Z.div_mod_to_equations; lia).
  eexists _, _, _. split; [reflexivity|].
  assert (Hm : 1 ≤ (if mp <? 10 then mp + 3 else mp - 9) ≤ 12)
    by (destruct (Z.ltb_spec mp 10); lia).
  remember (if mp <? 10 then mp + 3 else mp - 9) as m eqn:Hmm.
  remember (yoe + era * 400 + (if m <=? 2 then 1 else 0)) as y eqn:Hyy.
  unfold valid_date, date_to_days.
  rewrite (days_before_month_table y m Hm). cbv zeta.
  unfold days_before_year, leap_years, days_in_month, is_leap.
  destruct (Z.ltb_spec mp 10) as [Hlt|Hge] in Hmm;
    destruct (Z.leb_spec m 2) as [Hle|Hgt] in Hyy; try lia.
  all: repeat case_bool_decide; cbn [andb orb negb]; try lia.
  all: Z.div_mod_to_equations; lia.
Qed.

Lemma year_bounds (y m dd : Z) :
  valid_date y m dd →
  -106752 ≤ date_to_days y m dd ≤ 106751 →
  1677 ≤ y ≤ 2262.
Proof.
  intros [Hm Hd]. unfold date_to_days.
  rewrite (days_before_month_table y m Hm). cbv zeta.
  unfold days_before_year, leap_years. revert Hd. unfold days_in_month.
  destruct (is_leap y); repeat case_bool_decide; intros; try lia.
  all: Z.div_mod_to_equations; lia.
Qed.

Lemma digit_value_digit (n : Z) : digit_value (digit n) = Some (n `mod` 10).
Proof.
  unfold digit.
  assert (Hk : n `mod` 10 = 0 ∨ n `mod` 10 = 1 ∨ n `mod` 10 = 2
               ∨ n `mod` 10 = 3 ∨ n `mod` 10 = 4 ∨ n `mod` 10 = 5
               ∨ n `mod` 10 = 6 ∨ n `mod` 10 = 7 ∨ n `mod` 10 = 8
               ∨ n `mod` 10 = 9) by (Z.div_mod_to_equations; lia).
  destruct_or!; rewrite Hk; reflexivity.
Qed.

Lemma number_pad2 (n : Z) :
  number 0 [digit (n `div` 10); digit n] = Some (n `mod` 100).
Proof.
  cbn [number]. rewrite !digit_value_digit. f_equal.
  Z.div_mod_to_equations; lia.
Qed.

Lemma number_pad4 (n : Z) :
  number 0 [digit (n `div` 1000); digit (n `div` 100); digit (n `div` 10);
            digit n]
  = Some (n `mod` 10000).
Proof.
  cbn [number]. rewrite !digit_value_digit. f_equal.
  Z.div_mod_to_equations; lia.
Qed.

Lemma read_fixed_pads (y m d h n s : Z) :
  read_fixed (pad4 y ++ "-" ++ pad2 m ++ "-" ++ pad2 d ++ " "
              ++ pad2 h ++ ":" ++ pad2 n ++ ":" ++ pad2 s)
  = Some {| year := y `mod` 10000; month := m `mod` 100; day := d `mod` 100;
            hour := h `mod` 100; minute := n `mod` 100;
            second := s `mod` 100 |}.
Proof.
  unfold read_fixed.
  change (list_ascii_of_string _)
    with [digit (y `div` 1000); digit (y `div` 100); digit (y `div` 10);
          digit y; "-"%char; digit (m `div` 10); digit m; "-"%char;
          digit (d `div` 10); digit d; " "%char; digit (h `div` 10); digit h;
          ":"%char; digit (n `div` 10); digit n; ":"%char;
          digit (s `div` 10); digit s].
  cbv beta iota. rewrite bool_decide_eq_true_2 by reflexivity.
  by rewrite number_pad4, !number_pad2.
Qed.

Lemma strftime_renders (t : Z) :
  TIMESTAMP_MIN ≤ t ≤ TIMESTAMP_MAX → renders t (strftime t).
Proof.
  intros Ht. unfold renders, strftime.
  destruct (civil_from_days_spec (day_of t)) as (y & m & dd & -> & Hv & Hd).
  assert (Hday : -106752 ≤ day_of t ≤ 106751).
  { unfold day_of, NS_PER_DAY, NS_PER_SECOND, TIMESTAMP_MIN, TIMESTAMP_MAX in *.
    Z.div_mod_to_equations; lia. }
  pose proof (year_bounds y m dd Hv) as Hy. rewrite Hd in Hy.
  specialize (Hy Hday).
  rewrite read_fixed_pads. eexists. split; [reflexivity|]. cbn [year month day hour minute second].
  pose proof Hv as [Hm Hdd].
  assert (Hdim : days_in_month y m ≤ 31).
  { unfold days_in_month. destruct (is_leap y); repeat case_bool_decide; lia. }
  rewrite (Z.mod_small y), (Z.mod_small m), (Z.mod_small dd) by lia.
  rewrite Hd. split; [done|].
  unfold day_of, NS_PER_DAY, NS_PER_SECOND in *.
  Z.div_mod_to_equations; lia.
Qed.

(** ** Table projection *)

#[local] Instance timestamp_desc_trans : Transitive timestamp_desc.
Proof.
  intros r1 r2 r3. unfold timestamp_desc.
  destruct (stamp_of r1), (stamp_of r2), (stamp_of r3); try done. lia.
Qed.

#[local] Instance timestamp_desc_total : Total timestamp_desc.
Proof.
  intros r1 r2. unfold timestamp_desc.
  destruct (stamp_of r1), (stamp_of r2); try tauto. lia.
Qed.

Lemma StronglySorted_refine {A} (R R' : relation A) (P : A → Prop) l :
  (∀ x y, P x → P y → R x y → R' x y) →
  Forall P l → StronglySorted R l → StronglySorted R' l.
Proof.
  intros HR HP Hs. induction Hs as [|x l Hs IH Hx]; [constructor|].
  inv HP as [|? ? Px Pl]. constructor; [by apply IH|].
  clear IH Hs. induction Hx as [|y l Hy Hl IH]; constructor.
  - inv Pl. by apply HR.
  - inv Pl. by apply IH.
Qed.

Lemma round_cell_rounded (c : cell) : rounded c (round_cell 2 c).
Proof.
  destruct c as [| | |q]; try done. simpl.
  destruct (round2_close q) as (k & Hk & Hc).
  eexists. split; [done|]. split; [by exists k|done].
Qed.

(** A run of 34.5 seconds lasts 0.575 minutes; the float nearest to that
    lies below it, and the table shows 0.57. *)
Lemma round_half_minute :
  round_cell 2 HALF_MINUTE_RUN = Num (b64 (Qc_of_Z 57 / Qc_of_Z 100))
  ∧ rounded HALF_MINUTE_RUN (Num (b64 (Qc_of_Z 57 / Qc_of_Z 100))).
Proof.
  assert (H : round_cell 2 HALF_MINUTE_RUN
              = Num (b64 (Qc_of_Z 57 / Qc_of_Z 100))) by (by vm_compute).
  split; [done|]. rewrite <- H.
  change HALF_MINUTE_RUN with (Num (b64 (Q2Qc (69 # 2) / Qc_of_Z 60))).
  apply round_cell_rounded.
Qed.

Lemma get_select (cols : list string) (r : row) (c : string) :
  c ∈ cols → get (filter (λ kv : string * cell, kv.1 ∈ cols) r) c = get r c.
Proof.
  intros Hc. unfold get. rewrite map_lookup_filter.
  destruct (r !! c) as [x|]; simpl; [|done]. by rewrite option_guard_True.
Qed.

Lemma lookup_select_None (cols : list string) (r : row) (c : string) :
  c ∉ cols → filter (λ kv : string * cell, kv.1 ∈ cols) r !! c = None.
Proof.
  intros Hc. apply map_lookup_filter_None. right. intros x _. done.
Qed.

Lemma table_df_rows (flt : DataFrame) :
  rows flt ≠ [] → "timestamp" ∈ columns flt →
  table_df flt
  = Some {| columns := display_cols flt;
            rows := map (table_row_of (display_cols flt))
                        (merge_sort timestamp_desc (rows flt)) |}.
Proof.
  intros Hne Hts. unfold table_df, df_empty.
  destruct (rows flt) as [|r l] eqn:Hrows; [done|]. f_equal.
  assert (Hin : "timestamp" ∈ display_cols flt).
  { unfold display_cols. apply list_elem_of_filter. split; [done|].
    unfold ALLOW_LIST. apply list_elem_of_here. }
  unfold render_duration, render_timestamp, set_column, select, sort_values_desc.
  cbn [columns rows]. rewrite Hrows.
  rewrite (bool_decide_eq_true_2 _ Hin).
  unfold table_row_of.
  destruct (bool_decide ("duration_minutes" ∈ display_cols flt)) eqn:Hd.
  - cbn [columns rows]. rewrite ?Hd. cbn [columns rows]. f_equal. by rewrite !map_map.
  - cbn [columns rows]. f_equal. by rewrite !map_map.
Qed.

Lemma table_row_of_spec (cols : list string) (r0 : row) (t : Z) :
  "timestamp" ∈ cols →
  get r0 "timestamp" = Stamp t →
  TIMESTAMP_MIN ≤ t ≤ TIMESTAMP_MAX →
  table_row cols r0 (table_row_of cols r0).
Proof.
  intros Hin Hst Ht c. unfold table_row_of.
  set (r1 := filter (λ kv : string * cell, kv.1 ∈ cols) r0).
  set (r2 := <["timestamp" := strftime_cell (get r1 "timestamp")]> r1).
  assert (H2 : ∀ k, k ≠ "timestamp" → r2 !! k = r1 !! k).
  { intros k Hk. unfold r2. by rewrite lookup_insert_ne. }
  assert (Hts : get r2 "timestamp" = Text (strftime t)).
  { unfold get, r2. rewrite lookup_insert_eq. simpl. unfold r1.
    fold (get (filter (λ kv : string * cell, kv.1 ∈ cols) r0) "timestamp").
    by rewrite get_select, Hst. }
  destruct (decide (c ∈ cols)) as [Hc|Hc].
  - destruct (decide (c = "timestamp")) as [->|Hnt].
    + exists t, (strftime t). split; [done|]. split; [|by apply strftime_renders].
      case_bool_decide; [|done]. unfold get. by rewrite lookup_insert_ne.
    + destruct (decide (c = "duration_minutes")) as [->|Hnd].
      * rewrite bool_decide_eq_true_2 by done.
        unfold get at 2. rewrite lookup_insert_eq. simpl.
        replace (get r2 "duration_minutes") with (get r0 "duration_minutes").
        { apply round_cell_rounded. }
        unfold get at 2. rewrite H2 by done.
        symmetry. by apply get_select.
      * replace (get r0 c) with (get r2 c).
        { case_bool_decide; [|done]. unfold get. by rewrite lookup_insert_ne. }
        unfold get at 1. rewrite H2 by done. by apply get_select.
  - assert (c ≠ "timestamp") by (by intros ->).
    assert (Hr2 : r2 !! c = None).
    { rewrite H2 by done. by apply lookup_select_None. }
    case_bool_decide; [|done]. rewrite lookup_insert_ne; [done|]. by intros <-.
Qed.

(** C8: for a non-empty subset of a record set that has the timestamp
    column, with timestamps in the range of datetime64[ns], the table holds
    the rows of the subset, later rows first; its columns are those of the
    allow-list that the record set has, in the order of the allow-list;
    each row shows the timestamp as the text YYYY-MM-DD HH:MM:SS of its
    calendar second, the minutes rounded to two decimals (the float
    nearest to a whole number of hundredths, within half a hundredth of the
    minutes up to the error of the floating-point operations), and the
    other columns unchanged. *)
Theorem table_projection (df : DataFrame) (f : FilterSpec) :
  rows (filtered df f) ≠ [] →
  "timestamp" ∈ columns df →
  (∀ t, Stamp t ∈ series df "timestamp" → TIMESTAMP_MIN ≤ t ≤ TIMESTAMP_MAX) →
  ∃ tbl l,
    table_df (filtered df f) = Some tbl
    ∧ l ≡ₚ rows (filtered df f)
    ∧ StronglySorted later_first l
    ∧ columns tbl = filter (λ c, c ∈ columns df) ALLOW_LIST
    ∧ Forall2 (table_row (columns tbl)) l (rows tbl).
Proof.
  intros Hne Hts Hrange. set (flt := filtered df f) in *.
  assert (Hcols : "timestamp" ∈ display_cols flt).
  { unfold display_cols. apply list_elem_of_filter. split; [done|].
    unfold ALLOW_LIST. apply list_elem_of_here. }
  assert (Hst : Forall (λ r, ∃ t, get r "timestamp" = Stamp t
                             ∧ TIMESTAMP_MIN ≤ t ≤ TIMESTAMP_MAX)
                       (merge_sort timestamp_desc (rows flt))).
  { rewrite merge_sort_Permutation. apply Forall_forall.
    intros r Hr%list_elem_of_In. unfold flt, filtered, loc in Hr.
    cbn [rows] in Hr. apply list_elem_of_filter in Hr as [Hm Hr].
    apply mask_stamp in Hm. destruct Hm as [t Ht]. unfold stamp_of in Ht.
    destruct (get r "timestamp") as [| |t'|] eqn:E; try done.
    injection Ht as ->. exists t. split; [done|]. apply Hrange. rewrite <- E.
    unfold series. apply list_elem_of_fmap. by exists r. }
  eexists _, _. split; [by apply table_df_rows|]. cbn [columns rows].
  split_and!.
  - apply (merge_sort_Permutation timestamp_desc).
  - eapply StronglySorted_refine;
      [|exact Hst|apply (StronglySorted_merge_sort timestamp_desc)].
    intros r1 r2 (t1 & H1 & _) (t2 & H2 & _). unfold timestamp_desc, stamp_of.
    rewrite H1, H2. intros Hle. by exists t1, t2.
  - done.
  - apply Forall2_fmap_r, Forall_Forall2_diag.
    eapply Forall_impl; [|exact Hst]. intros r (t & Ht & Hb).
    by apply (table_row_of_spec _ _ t).
Qed.

Lemma table_projection_witness :
  ∃ tbl l,
    table_df (filtered sample_df (full_range ["A"])) = Some tbl
    ∧ l ≡ₚ rows (filtered sample_df (full_range ["A"]))
    ∧ StronglySorted later_first l
    ∧ columns tbl = filter (λ c, c ∈ columns sample_df) ALLOW_LIST
    ∧ Forall2 (table_row (columns tbl)) l (rows tbl).
Proof.
  apply (table_projection sample_df (full_range ["A"])).
  - intros H. apply (f_equal length) in H. vm_compute in H. discriminate H.
  - unfold sample_df. cbn [columns]. apply list_elem_of_here.
  - intros t Ht. unfold series, sample_df in Ht. cbn [rows map] in Ht.
    vm_compute in Ht.
    repeat (apply elem_of_cons in Ht as [Ht|Ht];
            [injection Ht as ->; vm_compute; split; discriminate|]).
    by apply elem_of_nil in Ht.
Defined.

(** ** Loading *)

Lemma filter_map {A B} (g : A → B) (P : B → Prop) `{∀ y, Decision (P y)}
    (l : list A) :
  filter P (map g l) = map g (filter (λ x, P (g x)) l).
Proof.
  induction l as [|x l IH]; [done|]. cbn [map].
  rewrite !filter_cons. case_decide; cbn [map]; by rewrite IH.
Qed.

Lemma get_insert (r : row) (c k : string) (x : cell) :
  get (<[c := x]> r) k = if decide (c = k) then x else get r k.
Proof.
  unfold get. case_decide as Hc.
  - subst. by rewrite lookup_insert_eq.
  - by rewrite lookup_insert_ne.
Qed.

Lemma load_frame_Loaded pd pn raw df :
  load_frame pd pn raw = Loaded df →
  missing (columns (normalize raw)) = []
  ∧ df = add_duration pn (parse_timestamps pd (normalize raw)).
Proof.
  unfold load_frame. destruct (missing (columns (normalize raw))); [|done].
  destruct (existsb _ _); [done|]. by intros [= <-].
Qed.

Lemma to_datetime_timestamp_of pd col c :
  to_datetime pd col c
  = match timestamp_of pd col c with Some t => Stamp t | None => NA end.
Proof.
  unfold to_datetime, timestamp_of. destruct c as [|s| |]; try done.
  destruct (pd col s) as [t|]; [|done].
  by destruct (decide (TIMESTAMP_MIN ≤ t ≤ TIMESTAMP_MAX));
    [rewrite bool_decide_eq_true_2|rewrite bool_decide_eq_false_2].
Qed.

Lemma rows_parse_timestamps pd (df : DataFrame) :
  rows (parse_timestamps pd df)
  = map (λ r, <["timestamp" :=
                 to_datetime pd (series df "timestamp") (get r "timestamp")]> r)
        (filter (λ r, is_Some (timestamp_of pd (series df "timestamp")
                                 (get r "timestamp")))
                (rows df)).
Proof.
  unfold parse_timestamps, dropna, loc, set_column. cbn [rows].
  rewrite filter_map. f_equal. apply list_filter_iff. intros r.
  rewrite get_insert, decide_True by done.
  rewrite to_datetime_timestamp_of.
  destruct (timestamp_of pd (series df "timestamp") (get r "timestamp"));
    simpl; split; try done; by intros [? ?].
Qed.

Lemma rows_add_duration pn (df : DataFrame) :
  ∃ h : row → row,
    rows (add_duration pn df) = map h (rows df)
    ∧ ∀ r k, k ≠ "duration" → k ≠ "duration_minutes" → get (h r) k = get r k.
Proof.
  unfold add_duration, set_column. case_bool_decide; cbn [rows].
  - rewrite map_map. eexists. split; [done|]. intros r k H1 H2.
    cbv beta. rewrite !get_insert. by repeat (rewrite decide_False by done).
  - eexists. split; [done|]. intros r k H1 H2.
    cbv beta. rewrite !get_insert. by repeat (rewrite decide_False by done).
Qed.

(** C3, as the script has it: the record set is the rows of the source
    whose timestamp cell holds a valid timestamp, in their order, each with
    that timestamp parsed and with its workflow and branch cells as the
    source has them, null or not; the rows whose timestamp does not parse
    are left out, so [total_runs] of the record set counts the rows with a
    valid timestamp only. *)
Theorem load_invariant (pd : list cell → string → option Z)
    (pn : string → option Qc) (raw : RawFrame) (df : DataFrame) :
  load_frame pd pn raw = Loaded df →
  Forall2 (loaded_row pd (series (normalize raw) "timestamp"))
    (filter (λ r0, is_Some (timestamp_of pd (series (normalize raw) "timestamp")
                              (get r0 "timestamp")))
            (rows (normalize raw)))
    (rows df)
  ∧ total_runs df
    = length (filter (λ r0, is_Some (timestamp_of pd
                                       (series (normalize raw) "timestamp")
                                       (get r0 "timestamp")))
                     (rows (normalize raw))).
Proof.
  intros [_ ->]%load_frame_Loaded.
  destruct (rows_add_duration pn (parse_timestamps pd (normalize raw)))
    as (h & Hrows & Hget).
  unfold total_runs. rewrite Hrows, rows_parse_timestamps, map_map.
  split; [|by rewrite length_map].
  apply Forall2_fmap_r, Forall_Forall2_diag, Forall_forall.
  intros r0 Hr0%list_elem_of_In. apply list_elem_of_filter in Hr0 as [[t Ht] _].
  unfold compose, loaded_row. rewrite !Hget by done.
  rewrite !get_insert, decide_True, !decide_False by done.
  split; [|done]. exists t. split; [done|].
  by rewrite to_datetime_timestamp_of, Ht.
Qed.

Lemma load_invariant_witness :
  Forall2 (loaded_row iso_dates (series (normalize sample_raw) "timestamp"))
    (filter (λ r0, is_Some (timestamp_of iso_dates
                              (series (normalize sample_raw) "timestamp")
                              (get r0 "timestamp")))
            (rows (normalize sample_raw)))
    (rows (loaded (load_frame iso_dates whole_numbers sample_raw)))
  ∧ total_runs (loaded (load_frame iso_dates whole_numbers sample_raw))
    = length (filter (λ r0, is_Some (timestamp_of iso_dates
                                       (series (normalize sample_raw) "timestamp")
                                       (get r0 "timestamp")))
                     (rows (normalize sample_raw))).
Proof.
  apply (load_invariant iso_dates whole_numbers sample_raw). by vm_compute.
Defined.

(** C3 as stated fails: a row with an empty workflow cell and a valid
    timestamp is loaded, with a null workflow. *)
Lemma loaded_workflow_may_be_null :
  ¬ (∀ pd pn raw df,
       load_frame pd pn raw = Loaded df →
       Forall (λ r, notna (get r "timestamp") ∧ notna (get r "workflow")
                    ∧ notna (get r "branch")) (rows df)).
Proof.
  intros H.
  specialize (H iso_dates whole_numbers null_workflow_raw
                (loaded (load_frame iso_dates whole_numbers null_workflow_raw))).
  assert (Hl : load_frame iso_dates whole_numbers null_workflow_raw
               = Loaded (loaded (load_frame iso_dates whole_numbers
                                   null_workflow_raw))) by (by vm_compute).
  apply H in Hl. clear H.
  assert (Hb : forallb (λ r, notna (get r "workflow"))
                 (rows (loaded (load_frame iso_dates whole_numbers
                                  null_workflow_raw))) = true).
  { apply forallb_forall. intros r Hr%list_elem_of_In.
    rewrite Forall_forall in Hl. apply list_elem_of_In in Hr.
    destruct (Hl r Hr) as (_ & Hn & _). by apply Is_true_true. }
  vm_compute in Hb. discriminate Hb.
Qed.

Lemma columns_parse_timestamps pd (df : DataFrame) (c : string) :
  c ≠ "timestamp" →
  c ∈ columns (parse_timestamps pd df) ↔ c ∈ columns df.
Proof.
  intros Hc. unfold parse_timestamps, dropna, loc, set_column. cbn [columns].
  case_bool_decide; [done|]. rewrite elem_of_app, list_elem_of_singleton.
  tauto.
Qed.

Lemma existsb_notna_false (s : list cell) :
  Forall (λ c, c = NA) s → existsb notna s = false.
Proof. induction 1 as [|c s -> _ IH]; [done|]. exact IH. Qed.

Lemma no_duration_NA (df : DataFrame) (f : FilterSpec) :
  Forall (λ r, get r "duration_minutes" = NA) (rows df) →
  has_any_duration (filtered df f) = false.
Proof.
  intros H. unfold has_any_duration. apply existsb_notna_false.
  unfold series. apply Forall_fmap. unfold filtered, loc. cbn [rows].
  induction H as [|r l Hr Hl IH]; [constructor|].
  rewrite filter_cons. case_decide; [constructor|]; done.
Qed.

(** C4: when the source has no column whose normalised label is
    [duration], every row of the record set has a null [duration_minutes],
    and for every filter [has_any_duration] is false, [total_minutes] and
    [avg_minutes] are NaN and both tiles show N/A. *)
Theorem no_duration_column (pd : list cell → string → option Z)
    (pn : string → option Qc) (raw : RawFrame) (df : DataFrame) :
  "duration" ∉ labels raw →
  load_frame pd pn raw = Loaded df →
  Forall (λ r, get r "duration_minutes" = NA) (rows df)
  ∧ ∀ f, has_any_duration (filtered df f) = false
         ∧ total_minutes (filtered df f) = None
         ∧ avg_minutes (filtered df f) = None
         ∧ k_total_minutes (kpis (filtered df f)) = NotApplicable
         ∧ k_avg_minutes (kpis (filtered df f)) = NotApplicable.
Proof.
  intros Hno [_ ->]%load_frame_Loaded.
  assert (Hna : Forall (λ r, get r "duration_minutes" = NA)
                  (rows (add_duration pn (parse_timestamps pd (normalize raw))))).
  { unfold add_duration. rewrite bool_decide_eq_false_2.
    - unfold set_column. cbn [rows]. apply Forall_fmap, Forall_true.
      intros r. unfold compose. by rewrite get_insert, decide_True.
    - by rewrite columns_parse_timestamps. }
  split; [done|]. intros f.
  pose proof (no_duration_NA _ f Hna) as Hd.
  unfold kpis, total_minutes, avg_minutes. cbn [k_total_minutes k_avg_minutes].
  unfold total_minutes, avg_minutes. by rewrite Hd.
Qed.

Lemma no_duration_column_witness :
  Forall (λ r, get r "duration_minutes" = NA)
    (rows (loaded (load_frame iso_dates whole_numbers no_duration_raw)))
  ∧ ∀ f,
      has_any_duration
        (filtered (loaded (load_frame iso_dates whole_numbers no_duration_raw)) f)
      = false
      ∧ total_minutes
          (filtered (loaded (load_frame iso_dates whole_numbers no_duration_raw)) f)
        = None
      ∧ avg_minutes
          (filtered (loaded (load_frame iso_dates whole_numbers no_duration_raw)) f)
        = None
      ∧ k_total_minutes
          (kpis (filtered (loaded (load_frame iso_dates whole_numbers
                                     no_duration_raw)) f))
        = NotApplicable
      ∧ k_avg_minutes
          (kpis (filtered (loaded (load_frame iso_dates whole_numbers
                                     no_duration_raw)) f))
        = NotApplicable.
Proof.
  apply (no_duration_column iso_dates whole_numbers no_duration_raw).
  - intros H. vm_compute in H.
    repeat (apply elem_of_cons in H as [H|H]; [discriminate H|]).
    by apply elem_of_nil in H.
  - by vm_compute.
Defined.

Lemma read_candidates_None fs (paths : list string) :
  (∀ p, p ∈ paths → ∀ raw, fs p ≠ Csv raw) →
  read_candidates fs paths = None.
Proof.
  induction paths as [|p ps IH]; intros H; [done|]. cbn [read_candidates].
  destruct (fs p) as [| |raw] eqn:E.
  - apply IH. intros q Hq. apply H. by right.
  - apply IH. intros q Hq. apply H. by right.
  - exfalso. apply (H p (list_elem_of_here _ _) raw E).
Qed.

Lemma read_candidates_first fs (before : list string) p (after : list string) raw :
  fs p = Csv raw →
  (∀ q, q ∈ before → ∀ r, fs q ≠ Csv r) →
  read_candidates fs (before ++ p :: after) = Some (raw, p).
Proof.
  intros Hp. induction before as [|q qs IH]; intros H; simpl.
  - by rewrite Hp.
  - destruct (fs q) as [| |r] eqn:E.
    + apply IH. intros q' Hq'. apply H. by right.
    + apply IH. intros q' Hq'. apply H. by right.
    + exfalso. apply (H q (list_elem_of_here _ _) r E).
Qed.

(** C9: when no candidate path holds a readable CSV, or the first readable
    one lacks a required column after normalisation, the script ends with
    the blocking message of that failure, which in the second case names
    the missing required columns in order, and renders nothing
    downstream, whatever the parsers and the filter. *)
Theorem load_errors (pd : list cell → string → option Z)
    (pn : string → option Qc) (fs : string → file) (f : FilterSpec)
    (msg : string) :
  failure fs msg → app pd pn fs f = Halted msg.
Proof.
  intros [Hno|raw m (before & p & after & Hpaths & Hp & Hbefore) -> Hm];
    unfold app, load.
  - by rewrite read_candidates_None.
  - rewrite Hpaths, (read_candidates_first fs before p after raw Hp Hbefore).
    unfold load_frame. fold (labels raw).
    change (columns (normalize raw)) with (labels raw).
    unfold missing, required.
    by destruct (filter (λ c, c ∉ labels raw) ["timestamp"; "workflow"; "branch"]).
Qed.

Lemma load_errors_witness :
  app iso_dates whole_numbers sample_fs (full_range [])
  = Halted "Missing required column(s): workflow, branch".
Proof.
  apply (load_errors iso_dates whole_numbers sample_fs (full_range [])).
  apply (schema_invalid sample_fs headless_raw ["workflow"; "branch"]).
  - exists ["syfan_workflows.csv"], "/mnt/data/syfan_workflows.csv", [].
    split; [reflexivity|]. split; [reflexivity|].
    intros q Hq r. apply list_elem_of_singleton in Hq as ->. discriminate.
  - by vm_compute.
  - discriminate.
Defined.

(** * Further properties *)

(** ** Labels *)

Lemma lower_char_idemp (c : ascii) : lower_char (lower_char c) = lower_char c.
Proof. destruct c as [[] [] [] [] [] [] [] []]; reflexivity. Qed.

Lemma isspace_lower_char (c : ascii) : isspace (lower_char c) = isspace c.
Proof. destruct c as [[] [] [] [] [] [] [] []]; reflexivity. Qed.

Lemma lower_idemp (s : string) : lower (lower s) = lower s.
Proof. induction s as [|c s IH]; [done|]. simpl. by rewrite lower_char_idemp, IH. Qed.

Lemma lstrip_lower (s : string) : lstrip (lower s) = lower (lstrip s).
Proof.
  induction s as [|c s IH]; [done|]. simpl. rewrite isspace_lower_char.
  by destruct (isspace c).
Qed.

Lemma rstrip_lower (s : string) : rstrip (lower s) = lower (rstrip s).
Proof.
  induction s as [|c s IH]; [done|]. simpl. rewrite IH, isspace_lower_char.
  destruct (rstrip s); simpl; [by destruct (isspace c)|done].
Qed.

Lemma strip_lower (s : string) : strip (lower s) = lower (strip s).
Proof. unfold strip. by rewrite lstrip_lower, rstrip_lower. Qed.

Lemma rstrip_idemp (s : string) : rstrip (rstrip s) = rstrip s.
Proof.
  induction s as [|c s IH]; [done|]. simpl.
  destruct (rstrip s) as [|c' t] eqn:E.
  - destruct (isspace c) eqn:Ec; [done|]. simpl. by rewrite Ec.
  - simpl in *. by rewrite IH.
Qed.

Lemma lstrip_trimmed (s : string) : trimmed_left (lstrip s).
Proof.
  induction s as [|c s IH]; [done|]. simpl.
  by destruct (isspace c) eqn:E.
Qed.

Lemma lstrip_id (s : string) : trimmed_left s → lstrip s = s.
Proof. destruct s as [|c s]; [done|]. simpl. by intros ->. Qed.

Lemma rstrip_trimmed (s : string) : trimmed_left s → trimmed_left (rstrip s).
Proof.
  destruct s as [|c s]; [done|]. simpl. intros Hc.
  destruct (rstrip s); simpl; [by rewrite Hc|done].
Qed.

Lemma strip_idemp (s : string) : strip (strip s) = strip s.
Proof.
  unfold strip.
  rewrite (lstrip_id (rstrip (lstrip s)))
    by apply rstrip_trimmed, lstrip_trimmed.
  apply rstrip_idemp.
Qed.

Lemma lstrip_blank_app (pre s : string) :
  blank pre → lstrip (pre ++ s) = lstrip s.
Proof.
  induction pre as [|c pre IH]; [done|]. simpl.
  intros [Hc Hpre]%andb_prop_elim. destruct (isspace c); [by apply IH|done].
Qed.

Lemma rstrip_blank (post : string) :
  blank post → rstrip post = EmptyString.
Proof.
  induction post as [|c post IH]; [done|]. simpl.
  intros [Hc Hpost]%andb_prop_elim. rewrite IH by done.
  by destruct (isspace c).
Qed.

Lemma rstrip_app_blank (s post : string) :
  blank post → rstrip (s ++ post) = rstrip s.
Proof.
  intros Hpost. induction s as [|c s IH]; simpl.
  - by apply rstrip_blank.
  - by rewrite IH.
Qed.

Lemma strip_app_blank (s post : string) :
  blank post → strip (s ++ post) = strip s.
Proof.
  intros Hpost. unfold strip. induction s as [|c s IH]; simpl.
  - assert (Hb : blank (lstrip post)).
    { clear -Hpost. induction post as [|c post IH]; [done|]. simpl in *.
      apply andb_prop_elim in Hpost as [Hc Hp].
      destruct (isspace c); [by apply IH|done]. }
    by apply rstrip_blank.
  - destruct (isspace c); [done|].
    by apply (rstrip_app_blank (String c s) post).
Qed.

(** X1: normalising a label twice is normalising it once. *)
Theorem normalize_label_idemp (c : string) :
  lower (strip (lower (strip c))) = lower (strip c).
Proof. by rewrite strip_lower, strip_idemp, lower_idemp. Qed.

(** X2: labels that differ in letter case and in surrounding whitespace
    only are normalised to the same label. *)
Theorem normalize_label_insensitive (pre post s s' : string) :
  blank pre → blank post → lower s = lower s' →
  lower (strip (pre ++ s ++ post)) = lower (strip s').
Proof.
  intros Hpre Hpost Hs.
  rewrite <- !strip_lower, <- Hs, !strip_lower. f_equal.
  unfold strip at 1. rewrite lstrip_blank_app by done.
  by apply strip_app_blank.
Qed.

Lemma normalize_label_insensitive_witness :
  lower (strip (" " ++ "TimeStamp" ++ "  ")) = lower (strip "timestamp").
Proof.
  apply (normalize_label_insensitive " " "  " "TimeStamp" "timestamp");
    reflexivity.
Defined.

(** ** Loading, continued *)

(** X3: the script loads the frame of the first candidate path that holds
    a readable CSV, whatever the later candidates hold. *)
Theorem first_readable_wins (pd : list cell → string → option Z)
    (pn : string → option Qc) (fs : string → file) (raw : RawFrame) :
  first_readable fs raw → load pd pn fs = load_frame pd pn raw.
Proof.
  intros (before & p & after & Hpaths & Hp & Hbefore). unfold load.
  by rewrite Hpaths, (read_candidates_first fs before p after raw Hp Hbefore).
Qed.

Lemma first_readable_wins_witness :
  load iso_dates whole_numbers local_fs
  = load_frame iso_dates whole_numbers sample_raw.
Proof.
  apply (first_readable_wins iso_dates whole_numbers local_fs sample_raw).
  exists [], "syfan_workflows.csv", ["/mnt/data/syfan_workflows.csv"].
  split; [reflexivity|]. split; [reflexivity|].
  intros q Hq. by apply elem_of_nil in Hq.
Defined.

(** X4: a read frame is refused for its columns exactly when one of the
    three required labels is absent after normalisation. *)
Theorem halted_iff_missing (pd : list cell → string → option Z)
    (pn : string → option Qc) (raw : RawFrame) :
  (∃ msg, load_frame pd pn raw = Halted msg)
  ↔ ∃ c, c ∈ ["timestamp"; "workflow"; "branch"] ∧ c ∉ labels raw.
Proof.
  unfold load_frame. change (columns (normalize raw)) with (labels raw).
  unfold missing, required.
  destruct (filter (λ c, c ∉ labels raw) ["timestamp"; "workflow"; "branch"])
    as [|c m] eqn:E.
  - split.
    + intros [msg H]. by destruct (existsb _ _).
    + intros (c & Hc & Hn). exfalso.
      assert (Hin : c ∈ filter (λ c, c ∉ labels raw)
                         ["timestamp"; "workflow"; "branch"])
        by (by apply list_elem_of_filter).
      rewrite E in Hin. by apply elem_of_nil in Hin.
  - split; [|by eexists]. intros _. exists c.
    assert (Hin : c ∈ filter (λ c, c ∉ labels raw)
                       ["timestamp"; "workflow"; "branch"])
      by (rewrite E; apply list_elem_of_here).
    apply list_elem_of_filter in Hin as [Hn Hc]. done.
Qed.

Lemma missing_nil_required (cols : list string) (c : string) :
  missing cols = [] → c ∈ required → c ∈ cols.
Proof.
  unfold missing. intros Hm Hc. destruct (decide (c ∈ cols)) as [|Hn]; [done|].
  assert (Hin : c ∈ filter (λ c, c ∉ cols) required)
    by (by apply list_elem_of_filter).
  rewrite Hm in Hin. by apply elem_of_nil in Hin.
Qed.

(** X5: the record set keeps the columns of the source, under their
    normalised labels and in their order, with [duration_minutes] added
    at the end when the source has no such column. *)
Theorem loaded_columns (pd : list cell → string → option Z)
    (pn : string → option Qc) (raw : RawFrame) (df : DataFrame) :
  load_frame pd pn raw = Loaded df →
  columns df = if decide ("duration_minutes" ∈ labels raw) then labels raw
               else (labels raw ++ ["duration_minutes"])%list.
Proof.
  intros [Hm ->]%load_frame_Loaded.
  assert (Hts : "timestamp" ∈ labels raw).
  { apply (missing_nil_required _ _ Hm). apply list_elem_of_here. }
  assert (Hp : columns (parse_timestamps pd (normalize raw)) = labels raw).
  { unfold parse_timestamps, dropna, loc, set_column. cbn [columns].
    change (columns (normalize raw)) with (labels raw).
    by rewrite bool_decide_eq_true_2. }
  unfold add_duration, set_column. rewrite Hp.
  case_bool_decide as Hd; cbn [columns]; rewrite ?Hp;
    by destruct (decide ("duration_minutes" ∈ labels raw));
      [rewrite bool_decide_eq_true_2|rewrite bool_decide_eq_false_2].
Qed.

Lemma loaded_columns_witness :
  columns (loaded (load_frame iso_dates whole_numbers sample_raw))
  = if decide ("duration_minutes" ∈ labels sample_raw) then labels sample_raw
    else (labels sample_raw ++ ["duration_minutes"])%list.
Proof.
  apply (loaded_columns iso_dates whole_numbers sample_raw). by vm_compute.
Defined.

(** X6: loading computes on the timestamp and duration columns only: in
    every row of the record set each other column of the source holds the
    cell the source has, and, when the source has a duration column, the
    minutes are the seconds of the row over sixty as a float, a null where
    the duration cell holds no number; no row is dropped for its
    duration. *)
Theorem loaded_cells (pd : list cell → string → option Z)
    (pn : string → option Qc) (raw : RawFrame) (df : DataFrame) :
  load_frame pd pn raw = Loaded df →
  Forall2 (λ r0 r,
             (∀ k, k ≠ "timestamp" → k ≠ "duration" → k ≠ "duration_minutes" →
                   r !! k = r0 !! k)
             ∧ ("duration" ∈ labels raw →
                get r "duration_minutes" = minutes_of pn (get r0 "duration")))
    (filter (λ r0, is_Some (timestamp_of pd (series (normalize raw) "timestamp")
                              (get r0 "timestamp")))
            (rows (normalize raw)))
    (rows df).
Proof.
  intros [Hm ->]%load_frame_Loaded.
  assert (Hts : "timestamp" ∈ labels raw).
  { apply (missing_nil_required _ _ Hm). apply list_elem_of_here. }
  assert (Hp : columns (parse_timestamps pd (normalize raw)) = labels raw).
  { unfold parse_timestamps, dropna, loc, set_column. cbn [columns].
    change (columns (normalize raw)) with (labels raw).
    by rewrite bool_decide_eq_true_2. }
  unfold add_duration, set_column. rewrite Hp.
  case_bool_decide as Hd; cbn [rows]; rewrite rows_parse_timestamps, !map_map;
    apply Forall2_fmap_r, Forall_Forall2_diag, Forall_true; intros r0;
    unfold compose; cbv beta; (split; [|intros Hd']).
  - intros k H1 H2 H3. by rewrite !lookup_insert_ne.
  - rewrite !get_insert, decide_True, decide_True, decide_False by done.
    unfold div60, to_numeric, minutes_of.
    destruct (get r0 "duration") as [|s| |]; try done.
    by destruct (pn s).
  - intros k H1 H2 H3. by rewrite !lookup_insert_ne.
  - done.
Qed.

Lemma loaded_cells_witness :
  Forall2 (λ r0 r,
             (∀ k, k ≠ "timestamp" → k ≠ "duration" → k ≠ "duration_minutes" →
                   r !! k = r0 !! k)
             ∧ ("duration" ∈ labels sample_raw →
                get r "duration_minutes"
                = minutes_of whole_numbers (get r0 "duration")))
    (filter (λ r0, is_Some (timestamp_of iso_dates
                              (series (normalize sample_raw) "timestamp")
                              (get r0 "timestamp")))
            (rows (normalize sample_raw)))
    (rows (loaded (load_frame iso_dates whole_numbers sample_raw))).
Proof.
  apply (loaded_cells iso_dates whole_numbers sample_raw). by vm_compute.
Defined.

(** ** The sidebar and the filter *)

Lemma filter_iff_elem_of {A} (P Q : A → Prop) `{∀ x, Decision (P x)}
    `{∀ x, Decision (Q x)} (l : list A) :
  (∀ x, x ∈ l → P x ↔ Q x) → filter P l = filter Q l.
Proof.
  induction l as [|x l IH]; intros HPQ; [done|].
  rewrite !filter_cons.
  rewrite IH by (intros y Hy; apply HPQ; by right).
  pose proof (HPQ x (list_elem_of_here _ _)).
  by repeat case_decide; try tauto.
Qed.

Lemma elem_of_workflows (df : DataFrame) (w : string) :
  w ∈ workflows df ↔ ∃ r, r ∈ rows df ∧ get r "workflow" = Text w.
Proof.
  unfold workflows. rewrite merge_sort_Permutation, elem_of_remove_dups.
  apply texts_series.
Qed.

(** X7: the workflow options are the workflows that occur in the record
    set, each once, in ascending order; a null workflow is no option. *)
Theorem workflow_options (df : DataFrame) :
  StronglySorted String.le (workflows df)
  ∧ NoDup (workflows df)
  ∧ ∀ w, w ∈ workflows df ↔ ∃ r, r ∈ rows df ∧ get r "workflow" = Text w.
Proof.
  split_and!; [| |apply elem_of_workflows]; unfold workflows.
  - apply (StronglySorted_merge_sort String.le).
  - rewrite merge_sort_Permutation. apply NoDup_remove_dups.
Qed.

(** X8: with every option selected, which is the default, the subset is
    the rows in the date range that have a workflow; when no row of the
    record set has one, the option list is empty and the subset is every
    row in the date range. *)
Theorem default_selection (df : DataFrame) (f : FilterSpec) :
  selected_workflows f = workflows df →
  rows (filtered df f)
  = filter (λ r, in_range f r
                 ∧ (is_Some (workflow_of r)
                    ∨ Forall (λ r', workflow_of r' = None) (rows df)))
           (rows df).
Proof.
  intros Hsel. unfold filtered, loc. cbn [rows].
  pose proof (elem_of_workflows df) as Hw.
  assert (Hnone : workflows df = []
                  ↔ Forall (λ r', workflow_of r' = None) (rows df)).
  { rewrite Forall_forall. split.
    - intros Hnil r Hr%list_elem_of_In. unfold workflow_of.
      destruct (get r "workflow") as [|w| |] eqn:E; try done.
      assert (Hin : w ∈ workflows df) by (apply Hw; eauto).
      rewrite Hnil in Hin. by apply elem_of_nil in Hin.
    - intros Hall. destruct (workflows df) as [|w l] eqn:E; [done|].
      assert (Hin : w ∈ w :: l) by apply list_elem_of_here.
      apply Hw in Hin as (r & Hr%list_elem_of_In & Hr').
      apply Hall in Hr. unfold workflow_of in Hr. by rewrite Hr' in Hr. }
  apply filter_iff_elem_of. intros r Hr.
  destruct (decide (selected_workflows f = [])) as [Hs|Hs].
  - rewrite (mask_empty f r Hs). rewrite Hs in Hsel. symmetry in Hsel.
    apply Hnone in Hsel. tauto.
  - rewrite (mask_nonempty f r Hs). rewrite Hsel in *.
    assert (Hnot : ¬ Forall (λ r', workflow_of r' = None) (rows df))
      by (by rewrite <- Hnone).
    unfold workflow_selected. rewrite Hsel. unfold workflow_of at 1.
    destruct (get r "workflow") as [|w| |] eqn:E.
    + split; [intros [_ []]|].
      intros [_ [[? ?]|Hf]]; [done|exfalso; exact (Hnot Hf)].
    + split; [intros [? _]; split; [done|left; by eexists]|].
      intros [? _]. split; [done|]. apply Hw. eauto.
    + split; [intros [_ []]|].
      intros [_ [[? ?]|Hf]]; [done|exfalso; exact (Hnot Hf)].
    + split; [intros [_ []]|].
      intros [_ [[? ?]|Hf]]; [done|exfalso; exact (Hnot Hf)].
Qed.

Lemma default_selection_witness :
  rows (filtered sample_df (full_range ["A"; "B"]))
  = filter (λ r, in_range (full_range ["A"; "B"]) r
                 ∧ (is_Some (workflow_of r)
                    ∨ Forall (λ r', workflow_of r' = None) (rows sample_df)))
           (rows sample_df).
Proof.
  apply (default_selection sample_df (full_range ["A"; "B"])). by vm_compute.
Defined.

(** X9: the date test keeps a row exactly when its calendar day lies in
    the range, save that a row in the last microsecond of the end date,
    after the start of that microsecond, is left out. *)
Theorem date_range_by_day (f : FilterSpec) (r : row) :
  ge_dt (get r "timestamp") (start_dt f) && le_dt (get r "timestamp") (end_dt f)
  ↔ in_days f r ∧ ¬ (on_day (end_date f) r ∧ in_last_microsecond r).
Proof.
  rewrite mask_in_range.
  unfold in_range, in_days, on_day, in_last_microsecond, stamp_of.
  destruct (get r "timestamp") as [| |t|]; simpl; try tauto.
  unfold day_of, NS_PER_DAY, NS_PER_SECOND.
  split.
  - intros [H1 H2]. split; [Z.div_mod_to_equations; lia|].
    intros [[= Hd] Hl]. Z.div_mod_to_equations; lia.
  - intros [[H1 H2] Hn]. split; [Z.div_mod_to_equations; lia|].
    destruct (decide (t `div` (86400 * 1000000000) = end_date f)) as [Hd|Hd].
    + assert (Hl : ¬ 86399999999000 < t `mod` (86400 * 1000000000)).
      { intros Hl. apply Hn. split; [by rewrite Hd|done]. }
      Z.div_mod_to_equations; lia.
    + Z.div_mod_to_equations; lia.
Qed.

(** ** KPIs, continued *)

(** X10: a subset without rows gives zero runs, N/A for both duration tiles,
    zero active workflows and branches, the information message in place of
    the charts and the information message in place of the table. *)
Theorem empty_subset_outputs (df : DataFrame) (f : FilterSpec) :
  rows (filtered df f) = [] →
  kpis (filtered df f)
  = {| k_total_runs := Count 0; k_total_minutes := NotApplicable;
       k_avg_minutes := NotApplicable; k_active_workflows := Count 0;
       k_active_branches := Count 0 |}
  ∧ charts (filtered df f) = None
  ∧ table_df (filtered df f) = None.
Proof.
  intros He.
  unfold kpis, charts, table_df, total_runs, total_minutes, avg_minutes,
    has_any_duration, active_workflows, active_branches, df_empty, series.
  by rewrite He.
Qed.

Lemma empty_subset_outputs_witness :
  kpis (filtered sample_df empty_range)
  = {| k_total_runs := Count 0; k_total_minutes := NotApplicable;
       k_avg_minutes := NotApplicable; k_active_workflows := Count 0;
       k_active_branches := Count 0 |}
  ∧ charts (filtered sample_df empty_range) = None
  ∧ table_df (filtered sample_df empty_range) = None.
Proof. apply (empty_subset_outputs sample_df empty_range). by vm_compute. Defined.



(** X13: the rows of the subset are a subsequence of the rows of the record
    set; the subset has the columns of the record set; and filtering the
    subset again with the same filter changes nothing. *)
Theorem filtered_view (df : DataFrame) (f : FilterSpec) :
  rows (filtered df f) `sublist_of` rows df
  ∧ columns (filtered df f) = columns df
  ∧ filtered (filtered df f) f = filtered df f.
Proof.
  unfold filtered, loc. cbn [rows columns]. split_and!.
  - apply sublist_filter.
  - done.
  - f_equal. rewrite list_filter_filter. apply list_filter_iff. tauto.
Qed.

(** ** Rounding, charts and table, continued *)



Lemma groupby_size_pos (s : list cell) (kv : string * nat) :
  kv ∈ groupby_size s → (0 < kv.2)%nat.
Proof.
  unfold groupby_size. intros (k & -> & Hk)%list_elem_of_fmap. cbn [snd].
  rewrite merge_sort_Permutation, elem_of_remove_dups in Hk.
  assert (Hin : k ∈ filter (λ x, x = k) (texts s))
    by (by apply list_elem_of_filter).
  destruct (filter (λ x, x = k) (texts s)); [by apply elem_of_nil in Hin|].
  simpl. lia.
Qed.

(** X15: every slice of the pie stands for at least one run and for no more
    runs than the subset has rows with a branch, and its percentage lies
    between 0 and 100. *)
Theorem slice_bounds (flt : DataFrame) (sl : list slice) :
  pie flt = Pie sl →
  Forall (λ s, (0 < s_runs s ≤ branch_rows flt)%nat
               ∧ (0 ≤ s_percentage s ≤ Qc_of_Z 100)%Qc) sl.
Proof.
  unfold pie. case_bool_decide as Hz; [done|]. intros [= <-].
  apply Forall_fmap, Forall_forall. intros kv Hkv%list_elem_of_In.
  unfold compose. cbn [s_runs s_percentage].
  assert (Hpos : (0 < kv.2)%nat).
  { apply (groupby_size_pos (series flt "branch")).
    unfold runs_by_branch in Hkv. by rewrite merge_sort_Permutation in Hkv. }
  assert (Hle : (kv.2 ≤ runs_sum (runs_by_branch flt))%nat).
  { assert (Hin : kv.2 ∈ (runs_by_branch flt).*2)
      by (apply list_elem_of_fmap; by exists kv).
    exact (sum_list_with_in _ id _ Hin). }
  split; [by rewrite <- runs_sum_total|].
  apply percentage_bounds. lia.
Qed.

Lemma slice_bounds_witness :
  Forall (λ s, (0 < s_runs s ≤ branch_rows sample_df)%nat
               ∧ (0 ≤ s_percentage s ≤ Qc_of_Z 100)%Qc)
    [{| s_branch := "X"; s_runs := 2;
        s_percentage := percentage 3 2 |};
     {| s_branch := "Y"; s_runs := 1;
        s_percentage := percentage 3 1 |}].
Proof. apply (slice_bounds sample_df). by vm_compute. Defined.

(** X16: the daily series of a non-empty subset starts and ends with a day
    that has a run: it has no leading and no trailing empty day. *)
Theorem daily_ends (df : DataFrame) (f : FilterSpec) :
  rows (filtered df f) ≠ [] →
  ∃ first final,
    head (daily (filtered df f)) = Some first
    ∧ list.last (daily (filtered df f)) = Some final
    ∧ (0 < first.2)%nat ∧ (0 < final.2)%nat.
Proof.
  intros Hne. set (flt := filtered df f) in *. unfold daily.
  set (ts := merge_sort Z.le (stamps (series flt "timestamp"))).
  destruct (resample_D_size_spec ts) as (tmin & tmax & Hmin & Hmax & Hall & Heq).
  { intros Hnil. apply (f_equal length) in Hnil. unfold ts in Hnil.
    rewrite merge_sort_Permutation, stamps_series in Hnil.
    unfold flt in Hnil. rewrite filtered_stamps in Hnil.
    apply Hne. unfold flt. by apply length_zero_iff_nil. }
  rewrite Heq.
  assert (Hd : day_of tmin ≤ day_of tmax)
    by (apply day_of_mono; exact (proj1 (Hall tmax Hmax))).
  assert (Hcount : ∀ t, t ∈ ts →
            (0 < length (filter (λ t', day_of t' = day_of t) ts))%nat).
  { intros t Ht.
    assert (Hin : t ∈ filter (λ t', day_of t' = day_of t) ts)
      by (by apply list_elem_of_filter).
    destruct (filter _ ts); [by apply elem_of_nil in Hin|simpl; lia]. }
  eexists _, _. split_and!.
  - rewrite seqZ_cons by lia. reflexivity.
  - replace (day_of tmax - day_of tmin + 1)
      with (Z.of_nat (S (Z.to_nat (day_of tmax - day_of tmin)))) by lia.
    rewrite seqZ_S, map_app. apply last_snoc.
  - cbn [snd]. by apply Hcount.
  - cbn [snd]. replace (day_of tmin + Z.of_nat (Z.to_nat (day_of tmax - day_of tmin)))
      with (day_of tmax) by lia. by apply Hcount.
Qed.

Lemma daily_ends_witness :
  ∃ first final,
    head (daily (filtered sample_df (full_range ["A"]))) = Some first
    ∧ list.last (daily (filtered sample_df (full_range ["A"]))) = Some final
    ∧ (0 < first.2)%nat ∧ (0 < final.2)%nat.
Proof.
  apply (daily_ends sample_df (full_range ["A"])).
  intros H. apply (f_equal length) in H. vm_compute in H. discriminate H.
Defined.

Lemma strftime_seconds (t : Z) :
  strftime t = strftime (t `div` NS_PER_SECOND * NS_PER_SECOND).
Proof.
  unfold strftime.
  replace (day_of (t `div` NS_PER_SECOND * NS_PER_SECOND)) with (day_of t)
    by (unfold day_of, NS_PER_DAY, NS_PER_SECOND; Z.div_mod_to_equations; lia).
  replace (((t `div` NS_PER_SECOND * NS_PER_SECOND) `mod` NS_PER_DAY)
           `div` NS_PER_SECOND)
    with ((t `mod` NS_PER_DAY) `div` NS_PER_SECOND)
    by (unfold NS_PER_DAY, NS_PER_SECOND; Z.div_mod_to_equations; lia).
  done.
Qed.

(** X17: two timestamps of datetime64[ns] are shown as the same text exactly
    when they fall in the same second: the text keeps the timestamp down
    to the second and drops what is below. *)
Theorem strftime_same_second (t1 t2 : Z) :
  TIMESTAMP_MIN ≤ t1 ≤ TIMESTAMP_MAX →
  TIMESTAMP_MIN ≤ t2 ≤ TIMESTAMP_MAX →
  strftime t1 = strftime t2
  ↔ t1 `div` NS_PER_SECOND = t2 `div` NS_PER_SECOND.
Proof.
  intros H1 H2. split.
  - intros Heq.
    destruct (strftime_renders t1 H1) as (fl1 & Hr1 & _ & _ & _ & _ & Hs1).
    destruct (strftime_renders t2 H2) as (fl2 & Hr2 & _ & _ & _ & _ & Hs2).
    rewrite Heq, Hr2 in Hr1. injection Hr1 as <-. by rewrite <- Hs1, <- Hs2.
  - intros Heq. by rewrite (strftime_seconds t1), (strftime_seconds t2), Heq.
Qed.

Lemma strftime_same_second_witness :
  strftime 1704067200000000000 = strftime 1704067200999999999
  ↔ 1704067200000000000 `div` NS_PER_SECOND
    = 1704067200999999999 `div` NS_PER_SECOND.
Proof.
  apply (strftime_same_second 1704067200000000000 1704067200999999999);
    by vm_compute.
Defined.

(** X18: the runs of the slices of the pie add up to the number of rows of
    the subset that have a branch, which is at most [total_runs] and equal
    to it exactly when every row of the subset has a branch. *)
Theorem pie_total (flt : DataFrame) (sl : list slice) :
  pie flt = Pie sl →
  sum_list (map s_runs sl) = branch_rows flt
  ∧ (branch_rows flt ≤ total_runs flt)%nat
  ∧ (branch_rows flt = total_runs flt
     ↔ Forall (λ r, is_Some (branch_of r)) (rows flt)).
Proof.
  unfold pie. case_bool_decide as Hz; [done|]. intros [= <-].
  split_and!.
  - rewrite map_map. cbn [s_runs]. apply runs_sum_total.
  - unfold branch_rows, total_runs. apply length_filter.
  - unfold branch_rows, total_runs. clear.
    induction (rows flt) as [|r l IH]; [split; [constructor|done]|].
    rewrite filter_cons.
    pose proof (length_filter (λ r, is_Some (branch_of r)) l) as Hle.
    case_decide as Hb; cbn [length].
    + split.
      * intros [= Hl]. constructor; [done|]. by apply IH.
      * intros H. inv H. f_equal. by apply IH.
    + split; [lia|]. intros H. by inv H.
Qed.

Lemma pie_total_witness :
  sum_list (map s_runs [{| s_branch := "X"; s_runs := 2;
                           s_percentage := percentage 3 2 |};
                        {| s_branch := "Y"; s_runs := 1;
                           s_percentage := percentage 3 1 |}])
  = branch_rows sample_df
  ∧ (branch_rows sample_df ≤ total_runs sample_df)%nat
  ∧ (branch_rows sample_df = total_runs sample_df
     ↔ Forall (λ r, is_Some (branch_of r)) (rows sample_df)).
Proof. apply (pie_total sample_df). by vm_compute. Defined.

(** X19: for a subset that has the timestamp column, the table has one row
    for each row of the subset, and the information message stands in its
    place exactly when the subset is empty. *)
Theorem table_size (flt : DataFrame) :
  "timestamp" ∈ columns flt →
  match table_df flt with
  | Some tbl => rows flt ≠ [] ∧ length (rows tbl) = total_runs flt
  | None => rows flt = []
  end.
Proof.
  intros _. unfold table_df, df_empty, total_runs.
  destruct (rows flt) as [|r l] eqn:E; [done|]. split; [done|].
  unfold render_duration, render_timestamp, set_column, select,
    sort_values_desc.
  case_bool_decide; cbn [rows]; rewrite !length_map, merge_sort_Permutation;
    by rewrite E.
Qed.

Lemma table_size_witness :
  match table_df sample_df with
  | Some tbl => rows sample_df ≠ [] ∧ length (rows tbl) = total_runs sample_df
  | None => rows sample_df = []
  end.
Proof. apply (table_size sample_df). apply list_elem_of_here. Defined.

(** ** The date range offered by default *)

(** X20: when the record set has a timestamp, the date range offered by
    default ends on the day of the latest timestamp and starts 213 days
    before that day, whatever the time of day and the part below the
    microsecond of the latest timestamp. *)
Theorem default_dates_spec (df : DataFrame) :
  stamps (series df "timestamp") ≠ [] →
  ∃ tmax,
    Stamp tmax ∈ series df "timestamp"
    ∧ (∀ t, Stamp t ∈ series df "timestamp" → t ≤ tmax)
    ∧ default_dates df = Some (day_of tmax - 213, day_of tmax).
Proof.
  intros Hne. unfold default_dates, default_start, max_dt.
  assert (Hmem : ∀ t, t ∈ stamps (series df "timestamp")
                      ↔ Stamp t ∈ series df "timestamp").
  { intros t. unfold stamps. rewrite list_elem_of_omap. split.
    - intros (c & Hc & Hs). by destruct c; simplify_eq.
    - intros Hc. by exists (Stamp t). }
  destruct (stamps (series df "timestamp")) as [|t0 ts] eqn:E; [done|].
  destruct (foldr_max_spec t0 ts) as [Hin Hmax].
  exists (foldr Z.max t0 ts). split_and!.
  - by apply Hmem.
  - intros t Ht. by apply Hmax, Hmem.
  - cbn [fmap option_fmap option_map]. f_equal.
    unfold date, to_pydatetime, day_of, NS_PER_DAY, NS_PER_SECOND.
    f_equal; Z.div_mod_to_equations; lia.
Qed.

Lemma default_dates_spec_witness :
  ∃ tmax,
    Stamp tmax ∈ series sample_df "timestamp"
    ∧ (∀ t, Stamp t ∈ series sample_df "timestamp" → t ≤ tmax)
    ∧ default_dates sample_df = Some (day_of tmax - 213, day_of tmax).
Proof. apply (default_dates_spec sample_df). by vm_compute. Defined.
